(** * Sweety Stash: the budget and streak engine of [streamlit_app.py]

    A shallow embedding of the core functions of the application
    ([get_financial_summary], [get_pet_status], [check_daily_reset],
    [update_streak], [check_rewards]) and of the three form callbacks
    ([log_expense_callback], [update_budget_callback],
    [give_treat_callback]), followed by the properties of the engine.

    Conventions of the embedding.
    - Python [float] values are IEEE 754 binary64 numbers: the kernel's
      primitive floats.  Python's [int] is [Z].  The sums pandas computes
      are written out with numpy's order of additions ([Pandas.sum]).
    - [datetime.now()] is an explicit argument [now] of every function that
      reads the clock; one call of a function sees one instant.
    - A date kept in the document as a ["%Y-%m-%d"] string is the calendar
      date it renders ([date]); [None] is [None].  The calendar arithmetic of
      [datetime] (ordinals, [timedelta]) is written out below.
    - The application data is one mutable dict held in
      [st.session_state.app_data]; functions that mutate it take the ledger
      and return the mutated one.  The callbacks act on a [world] holding
      that ledger, the JSON file and the messages shown to the user. *)

From Stdlib Require Import ZArith List String Bool Lia Floats.
Import ListNotations.

Local Open Scope Z_scope.

(** ** Calendar: the part of [datetime] the application uses *)

Module Calendar.

Record date := mkDate { year : Z; month : Z; day : Z }.

(** A [datetime]: a date and the time of day, in microseconds. *)
Record datetime := mkDatetime { dt_date : date; dt_tod : Z }.

(** A normalised [timedelta]: whole days, and [0 <= td_micros < 1 day]. *)
Record timedelta := mkTimedelta { td_days : Z; td_micros : Z }.

Definition MICROS_PER_DAY : Z := 86400 * 1000000.

Definition date_eqb (a b : date) : bool :=
  (year a =? year b) && (month a =? month b) && (day a =? day b).

(** [a == b] on optional dates ([None] or a date string). *)
Definition opt_date_eqb (a b : option date) : bool :=
  match a, b with
  | None, None => true
  | Some x, Some y => date_eqb x y
  | _, _ => false
  end.

Definition is_leap (y : Z) : bool :=
  (y mod 4 =? 0) && (negb (y mod 100 =? 0) || (y mod 400 =? 0)).

Definition DAYS_IN_MONTH (m : Z) : Z :=
  match m with
  | 1 => 31 | 2 => 28 | 3 => 31 | 4 => 30 | 5 => 31 | 6 => 30
  | 7 => 31 | 8 => 31 | 9 => 30 | 10 => 31 | 11 => 30 | 12 => 31
  | _ => -1
  end.

Definition DAYS_BEFORE_MONTH (m : Z) : Z :=
  match m with
  | 1 => 0 | 2 => 31 | 3 => 59 | 4 => 90 | 5 => 120 | 6 => 151
  | 7 => 181 | 8 => 212 | 9 => 243 | 10 => 273 | 11 => 304 | 12 => 334
  | _ => -1
  end.

Definition days_before_year (y : Z) : Z :=
  let p := y - 1 in p * 365 + p / 4 - p / 100 + p / 400.

Definition days_before_month (y m : Z) : Z :=
  DAYS_BEFORE_MONTH m + (if (2 <? m) && is_leap y then 1 else 0).

(** [date.toordinal()]: day 1 is 0001-01-01. *)
Definition toordinal (d : date) : Z :=
  days_before_year (year d) + days_before_month (year d) (month d) + day d.

Definition DI400Y : Z := 146097.
Definition DI100Y : Z := 36524.
Definition DI4Y : Z := 1461.

(** [date.fromordinal(n)]. *)
Definition fromordinal (n : Z) : date :=
  let n := n - 1 in
  let n400 := n / DI400Y in
  let n := n mod DI400Y in
  let y := n400 * 400 + 1 in
  let n100 := n / DI100Y in
  let n := n mod DI100Y in
  let n4 := n / DI4Y in
  let n := n mod DI4Y in
  let n1 := n / 365 in
  let n := n mod 365 in
  let y := y + n100 * 100 + n4 * 4 + n1 in
  if (n1 =? 4) || (n100 =? 4) then mkDate (y - 1) 12 31
  else
    let leapyear := (n1 =? 3) && (negb (n4 =? 24) || (n100 =? 3)) in
    let m := Z.shiftr (n + 50) 5 in
    let preceding :=
      DAYS_BEFORE_MONTH m + (if (2 <? m) && leapyear then 1 else 0) in
    if n <? preceding then
      let m' := m - 1 in
      let preceding' :=
        preceding
        - (DAYS_IN_MONTH m' + (if (m' =? 2) && leapyear then 1 else 0)) in
      mkDate y m' (n - preceding' + 1)
    else mkDate y m (n - preceding + 1).

(** [dt.replace(day=k)]. *)
Definition replace_day (dt : datetime) (k : Z) : datetime :=
  mkDatetime
    (mkDate (year (dt_date dt)) (month (dt_date dt)) k) (dt_tod dt).

(** [dt + timedelta(days=k)]; [dt - timedelta(days=k)] is [add_days dt (-k)]. *)
Definition add_days (dt : datetime) (k : Z) : datetime :=
  mkDatetime (fromordinal (toordinal (dt_date dt) + k)) (dt_tod dt).

(** [a - b] on datetimes. *)
Definition datetime_sub (a b : datetime) : timedelta :=
  let total :=
    (toordinal (dt_date a) - toordinal (dt_date b)) * MICROS_PER_DAY
    + (dt_tod a - dt_tod b) in
  mkTimedelta (total / MICROS_PER_DAY) (total mod MICROS_PER_DAY).

(** [(a - b).days] on dates. *)
Definition date_sub_days (a b : date) : Z := toordinal a - toordinal b.

(** Month of a date, as ["%Y-%m"] renders it. *)
Definition same_month (a b : date) : bool :=
  (year a =? year b) && (month a =? month b).

End Calendar.
Import Calendar.

(** ** Numbers

    Amounts are Python floats.  The integer literals the code mixes with them
    ([0], [100]) and the [int] [remaining_days] are converted to the float of
    the same value, as Python's arithmetic and comparisons do. *)

Module Num.

(** [float(k)] for a Python [int] [k] with [|k| < 2^63]. *)
Definition float_of_int (k : Z) : float :=
  if k <? 0 then PrimFloat.opp (PrimFloat.of_uint63 (Uint63.of_Z (- k)))
  else PrimFloat.of_uint63 (Uint63.of_Z k).

(** [max(0, x)]: Python keeps the first argument unless the next is greater. *)
Definition max0 (x : float) : float :=
  if PrimFloat.ltb 0 x then x else 0%float.

(** [min(100, x)]: Python keeps the first argument unless the next is less. *)
Definition min100 (x : float) : float :=
  if PrimFloat.ltb x 100 then x else 100%float.

(** The builtin [sum(xs)]: the additions from [0], left to right. *)
Definition sum (xs : list float) : float :=
  fold_left PrimFloat.add xs 0%float.

End Num.

(** ** [Series.sum()] of pandas on a float64 column

    [Series.sum()] is [nanops.nansum] with [skipna=True]: the NaN values are
    replaced by 0, then the array is summed by numpy's [ndarray.sum], which
    is [np.add.reduce] from the identity 0 with the pairwise summation of
    [pairwise_sum_DOUBLE] as its inner loop.  The additions are not those of
    a left fold once the array has 8 elements. *)

Module Pandas.

Definition PW_BLOCKSIZE : nat := 128.

(** The eight partial sums [r[0..7]]. *)
Record lanes := mkLanes {
  r0 : float; r1 : float; r2 : float; r3 : float;
  r4 : float; r5 : float; r6 : float; r7 : float
}.

(** [n < 8]: the elements are added to [-0.0] in order. *)
Definition sum_linear (a : list float) : float :=
  fold_left PrimFloat.add a PrimFloat.neg_zero.

(** [for (i = 8; i < n - (n % 8); i += 8) r[k] += a[i + k]]: every whole
    block of 8 is added lane by lane; what is left (fewer than 8 elements)
    is returned with the lanes. *)
Fixpoint add_blocks (r : lanes) (a : list float) : lanes * list float :=
  match a with
  | b0 :: b1 :: b2 :: b3 :: b4 :: b5 :: b6 :: b7 :: rest =>
      add_blocks
        (mkLanes (r0 r + b0) (r1 r + b1) (r2 r + b2) (r3 r + b3)
           (r4 r + b4) (r5 r + b5) (r6 r + b6) (r7 r + b7))
        rest
  | _ => (r, a)
  end.

(** [8 <= n <= PW_BLOCKSIZE]: the lanes start as the first 8 elements, take
    the whole blocks, are added as a tree, and the rest is added in order. *)
Definition sum_unrolled (a : list float) : float :=
  match a with
  | a0 :: a1 :: a2 :: a3 :: a4 :: a5 :: a6 :: a7 :: rest =>
      let '(r, tail) := add_blocks (mkLanes a0 a1 a2 a3 a4 a5 a6 a7) rest in
      let res :=
        (((r0 r + r1 r) + (r2 r + r3 r))
         + ((r4 r + r5 r) + (r6 r + r7 r)))%float in
      fold_left PrimFloat.add tail res
  | _ => sum_linear a
  end.

(** [pairwise_sum_DOUBLE(a, n)].  Above [PW_BLOCKSIZE] the array is cut at
    [n2 = n / 2 - (n / 2) % 8] and the two halves are summed by the same
    function.  [fuel] bounds the depth of these cuts; the length of the
    array is always enough ([pairwise_sum_rec_fuel]). *)
Fixpoint pairwise_sum_rec (fuel : nat) (a : list float) : float :=
  let n := List.length a in
  if Nat.ltb n 8 then sum_linear a
  else if Nat.leb n PW_BLOCKSIZE then sum_unrolled a
  else
    match fuel with
    | O => sum_unrolled a
    | S fuel =>
        let n2 := Nat.div n 2 in
        let n2 := Nat.sub n2 (Nat.modulo n2 8) in
        (pairwise_sum_rec fuel (firstn n2 a)
         + pairwise_sum_rec fuel (skipn n2 a))%float
    end.

Definition pairwise_sum (a : list float) : float :=
  pairwise_sum_rec (List.length a) a.

(** [a.sum()]: the reduction starts from the identity of [np.add]. *)
Definition ndarray_sum (a : list float) : float :=
  (0 + pairwise_sum a)%float.

(** [skipna]: a NaN counts as 0. *)
Definition fill_nan (x : float) : float :=
  if PrimFloat.is_nan x then 0%float else x.

(** [series.sum()] *)
Definition sum (values : list float) : float :=
  ndarray_sum (map fill_nan values).

End Pandas.

(** ** The ledger document *)

Record expense := mkExpense {
  date_ : date;                 (* "date" *)
  amount : float;
  category : string;
  description : string;
  is_big_purchase : bool
}.

Record goal := mkGoal { target : float; current : float }.

(** The dict behind [st.session_state.app_data]; dicts keep insertion order. *)
Record ledger := mkLedger {
  monthly_income : float;
  monthly_savings_goal : float;
  fixed_expenses : list (string * float);
  daily_expenses : list expense;
  extra_goals : list (string * goal);
  pet_name : string;
  saving_streak : Z;
  last_streak_date : option date;
  daily_treat_given : bool;
  last_treat_date : option date;
  rewards_unlocked : list string
}.

Definition PET_NAME_DEFAULT : string := "Sweety".

(** The document [_initialize_defaults] builds from an empty file. *)
Definition default_data : ledger :=
  mkLedger 0 0 [] [] [] PET_NAME_DEFAULT 0 None false None [].

(** Item assignment [data[key] = v], one function per key the code assigns. *)

Definition set_monthly_income (v : float) (d : ledger) : ledger :=
  mkLedger v (monthly_savings_goal d) (fixed_expenses d) (daily_expenses d)
    (extra_goals d) (pet_name d) (saving_streak d) (last_streak_date d)
    (daily_treat_given d) (last_treat_date d) (rewards_unlocked d).

Definition set_monthly_savings_goal (v : float) (d : ledger) : ledger :=
  mkLedger (monthly_income d) v (fixed_expenses d) (daily_expenses d)
    (extra_goals d) (pet_name d) (saving_streak d) (last_streak_date d)
    (daily_treat_given d) (last_treat_date d) (rewards_unlocked d).

Definition set_fixed_expenses (v : list (string * float)) (d : ledger)
  : ledger :=
  mkLedger (monthly_income d) (monthly_savings_goal d) v (daily_expenses d)
    (extra_goals d) (pet_name d) (saving_streak d) (last_streak_date d)
    (daily_treat_given d) (last_treat_date d) (rewards_unlocked d).

Definition set_daily_expenses (v : list expense) (d : ledger) : ledger :=
  mkLedger (monthly_income d) (monthly_savings_goal d) (fixed_expenses d) v
    (extra_goals d) (pet_name d) (saving_streak d) (last_streak_date d)
    (daily_treat_given d) (last_treat_date d) (rewards_unlocked d).

Definition set_saving_streak (v : Z) (d : ledger) : ledger :=
  mkLedger (monthly_income d) (monthly_savings_goal d) (fixed_expenses d)
    (daily_expenses d) (extra_goals d) (pet_name d) v (last_streak_date d)
    (daily_treat_given d) (last_treat_date d) (rewards_unlocked d).

Definition set_last_streak_date (v : option date) (d : ledger) : ledger :=
  mkLedger (monthly_income d) (monthly_savings_goal d) (fixed_expenses d)
    (daily_expenses d) (extra_goals d) (pet_name d) (saving_streak d) v
    (daily_treat_given d) (last_treat_date d) (rewards_unlocked d).

Definition set_daily_treat_given (v : bool) (d : ledger) : ledger :=
  mkLedger (monthly_income d) (monthly_savings_goal d) (fixed_expenses d)
    (daily_expenses d) (extra_goals d) (pet_name d) (saving_streak d)
    (last_streak_date d) v (last_treat_date d) (rewards_unlocked d).

Definition set_last_treat_date (v : option date) (d : ledger) : ledger :=
  mkLedger (monthly_income d) (monthly_savings_goal d) (fixed_expenses d)
    (daily_expenses d) (extra_goals d) (pet_name d) (saving_streak d)
    (last_streak_date d) (daily_treat_given d) v (rewards_unlocked d).

Definition set_rewards_unlocked (v : list string) (d : ledger) : ledger :=
  mkLedger (monthly_income d) (monthly_savings_goal d) (fixed_expenses d)
    (daily_expenses d) (extra_goals d) (pet_name d) (saving_streak d)
    (last_streak_date d) (daily_treat_given d) (last_treat_date d) v.

(** ** Core logic *)

(** The dict [get_financial_summary] returns.  Its ["monthly_income"] key is
    [fin_monthly_income] here, the ledger having a field of that name. *)
Record financials := mkFinancials {
  fin_monthly_income : float;
  fixed_expenses_sum : float;
  target_saving : float;
  daily_allowance : float;
  todays_expenses : float;
  todays_savings : float;
  total_spent_month : float;
  daily_used_percent : float;
  remaining_days : Z
}.

(** [frame[~frame['is_big_purchase']]['amount'].sum()] *)
Definition not_big_amount_sum (frame : list expense) : float :=
  Pandas.sum (map amount (filter (fun e => negb (is_big_purchase e)) frame)).

(** Days left in the month of [now], today included: lines 103-108. *)
Definition remaining_days_at (now : datetime) : Z :=
  let next_month := add_days (replace_day now 28) 4 in
  let last_day := add_days next_month (- day (dt_date next_month)) in
  Z.max 1 (td_days (datetime_sub last_day now) + 1).

Definition get_financial_summary (now : datetime) (data : ledger)
  : financials :=
  let income := monthly_income data in
  let fixed := Num.sum (map snd (fixed_expenses data)) in
  let goal := monthly_savings_goal data in
  let today := dt_date now in
  let current_month := dt_date now in
  let df := daily_expenses data in
  let '(total_spent, todays_spent) :=
    match df with
    | [] => (0%float, 0%float)
    | _ :: _ =>
        let expenses_this_month :=
          filter (fun e => same_month (date_ e) current_month) df in
        let total_spent := not_big_amount_sum expenses_this_month in
        let todays_expenses := filter (fun e => date_eqb (date_ e) today) df in
        let todays_spent := not_big_amount_sum todays_expenses in
        (total_spent, todays_spent)
    end in
  let remaining_days := remaining_days_at now in
  let disposable := (income - fixed - goal)%float in
  let daily_allowance :=
    if 0 <? remaining_days
    then Num.max0 (disposable / Num.float_of_int remaining_days)%float
    else 0%float in
  let todays_savings := (daily_allowance - todays_spent)%float in
  let daily_used_percent :=
    if PrimFloat.ltb 0 daily_allowance
    then Num.min100 ((todays_spent / daily_allowance) * 100)%float
    else 0%float in
  mkFinancials income fixed goal daily_allowance todays_spent todays_savings
    total_spent daily_used_percent remaining_days.

(** The dict [get_pet_status] returns. *)
Record pet_status := mkPetStatus {
  mood : string;
  message : string;
  image : string;
  streak : Z
}.

Definition get_pet_status (data : ledger) (fin : financials) : pet_status :=
  let savings := todays_savings fin in
  let treat := daily_treat_given data in
  let '(mood, image, msg) :=
    ("Neutral", "🐱", "Waiting for updates...")%string in
  let '(mood, image, msg) :=
    if PrimFloat.eqb (fin_monthly_income fin) 0
    then (mood, image,
          "Please set up your budget first in the sidebar!"%string)
    else if PrimFloat.leb 0 savings && PrimFloat.ltb 0 (todays_expenses fin)
    then ("Happy", "😺", "Purrfect! On track today.")%string
    else if PrimFloat.ltb savings 0
    then ("Sad", "😿", "Careful! You've gone over budget.")%string
    else (mood, image, msg) in
  let '(mood, image, msg) :=
    if treat
    then ("Excited", "😻",
          "Yum! Treats make " ++ pet_name data
          ++ " happy! Keep saving!")%string
    else (mood, image, msg) in
  mkPetStatus mood msg image (saving_streak data).

(** Returns the mutated ledger and the function's result. *)
Definition check_daily_reset (now : datetime) (data : ledger)
  : ledger * bool :=
  let today := dt_date now in
  if negb (opt_date_eqb (last_treat_date data) (Some today))
  then (set_last_treat_date (Some today) (set_daily_treat_given false data),
        true)
  else (data, false).

Definition update_streak (now : datetime) (data : ledger)
  (todays_savings : float) : ledger * Z :=
  let today := dt_date now in
  let last := last_streak_date data in
  let data :=
    if PrimFloat.leb 0 todays_savings
    then
      if negb (opt_date_eqb last (Some today))
      then
        let data :=
          match last with
          | Some last_dt =>
              if date_sub_days (dt_date now) last_dt =? 1
              then set_saving_streak (saving_streak data + 1) data
              else if 1 <? date_sub_days (dt_date now) last_dt
              then set_saving_streak 1 data
              else data
          | None => set_saving_streak 1 data
          end in
        set_last_streak_date (Some today) data
      else data
    else set_last_streak_date (Some today) (set_saving_streak 0 data) in
  (data, saving_streak data).

(** [name in rewards] *)
Definition reward_in (name : string) (rewards : list string) : bool :=
  existsb (String.eqb name) rewards.

Definition check_rewards (data : ledger) : ledger * option string :=
  let streak := saving_streak data in
  let rewards := rewards_unlocked data in
  let new_reward : option string := None in
  let '(rewards, new_reward) :=
    if (7 <=? streak) && negb (reward_in "Weekly Spa" rewards)
    then (rewards ++ ["Weekly Spa"%string], Some "Weekly Spa"%string)
    else (rewards, new_reward) in
  let '(rewards, new_reward) :=
    if (30 <=? streak) && negb (reward_in "Monthly Vacation" rewards)
    then (rewards ++ ["Monthly Vacation"%string],
          Some "Monthly Vacation"%string)
    else (rewards, new_reward) in
  (set_rewards_unlocked rewards data, new_reward).

(** ** The session: ledger in memory, JSON file, and what the user is shown *)

Inductive ui_event :=
| st_error (msg : string)
| st_toast (msg : string)
| st_balloons.

(** [app_data] is [st.session_state.app_data]; [data_file] is the content of
    [DATA_FILE] ([None]: no file); [writable] tells whether opening the file
    for writing succeeds; [ui] lists the messages shown, oldest first. *)
Record world := mkWorld {
  app_data : ledger;
  data_file : option ledger;
  writable : bool;
  ui : list ui_event
}.

Definition set_app_data (d : ledger) (w : world) : world :=
  mkWorld d (data_file w) (writable w) (ui w).

Definition emit (e : ui_event) (w : world) : world :=
  mkWorld (app_data w) (data_file w) (writable w) (ui w ++ [e]).

Definition _save_data (data : ledger) (w : world) : world * bool :=
  if writable w
  then (mkWorld (app_data w) (Some data) (writable w) (ui w), true)
  else (emit (st_error "Could not save data. Check file permissions.") w,
        false).

(** ** Callbacks of the forms

    Each callback starts with [data = st.session_state.app_data]: [data] is
    the session's dict itself, so what the callback assigns is in the session
    when it returns, on every path. *)

Definition log_expense_callback (now : datetime) (amount : float)
  (category description : string) (is_big_purchase : bool) (w : world)
  : world :=
  let data := app_data w in
  if PrimFloat.leb amount 0
  then emit (st_error "Expense amount must be positive.") w
  else
    let transaction :=
      mkExpense (dt_date now) amount category description is_big_purchase in
    let data := set_daily_expenses (daily_expenses data ++ [transaction]) data in
    let fin := get_financial_summary now data in
    let '(data, _) := update_streak now data (todays_savings fin) in
    let '(data, new_reward) := check_rewards data in
    let w := set_app_data data w in
    let '(w, _) := _save_data data w in
    let w := emit (st_toast "Expense logged successfully!") w in
    match new_reward with
    | Some r =>
        emit (st_toast ("🎉 New Reward Unlocked: " ++ r ++ "! 🎉"))
          (emit st_balloons w)
    | None => w
    end.

Definition update_budget_callback (income goal : float)
  (fixed_expenses : list (string * float)) (w : world) : world :=
  let data := app_data w in
  if PrimFloat.ltb income 0 || PrimFloat.ltb goal 0
  then emit (st_error "Income and savings goal cannot be negative.") w
  else if PrimFloat.ltb income (Num.sum (map snd fixed_expenses))
  then emit (st_error "Total fixed expenses exceed your monthly income!") w
  else
    let data := set_monthly_income income data in
    let data := set_monthly_savings_goal goal data in
    let data := set_fixed_expenses fixed_expenses data in
    let w := set_app_data data w in
    let '(w, _) := _save_data data w in
    emit (st_toast "Budget updated successfully!") w.

Definition give_treat_callback (now : datetime) (w : world) : world :=
  let data := app_data w in
  if daily_treat_given data
  then emit (st_error (pet_name data ++ " already got a treat today!")) w
  else
    let fin := get_financial_summary now data in
    if PrimFloat.leb 0 (todays_savings fin)
    then
      let data := set_daily_treat_given true data in
      let data := set_last_treat_date (Some (dt_date now)) data in
      let w := set_app_data data w in
      let '(w, _) := _save_data data w in
      emit (st_toast ("You gave " ++ pet_name data ++ " a treat! 😻")) w
    else
      emit
        (st_error
           ("You need to be on budget (or below) to give " ++ pet_name data
            ++ " a treat!")) w.

(** The head of [main], lines 375-388: daily reset, summary, pet status,
    streak and rewards.  Returns what the page then displays. *)
Definition main (now : datetime) (w : world)
  : world * (financials * pet_status) :=
  let data := app_data w in
  let '(data, changed) := check_daily_reset now data in
  let w := set_app_data data w in
  let w := if changed then fst (_save_data data w) else w in
  let fin := get_financial_summary now data in
  let pet := get_pet_status data fin in
  let '(data, _) := update_streak now data (todays_savings fin) in
  let '(data, _) := check_rewards data in
  let w := set_app_data data w in
  let '(w, _) := _save_data data w in
  (w, (fin, pet)).

(** ** Runs of the application

    One user interaction: a rerun of the page, or a callback followed by the
    functions it calls.  The core functions appear on their own too, with the
    savings value the caller passes. *)

Inductive operation :=
| OpUpdateStreak (now : datetime) (todays_savings : float)
| OpCheckRewards
| OpDailyReset (now : datetime)
| OpLogExpense (now : datetime) (amount : float)
    (category description : string) (is_big_purchase : bool)
| OpUpdateBudget (income goal : float) (fixed : list (string * float))
| OpGiveTreat (now : datetime)
| OpMain (now : datetime).

Definition perform (op : operation) (w : world) : world :=
  match op with
  | OpUpdateStreak now s =>
      set_app_data (fst (update_streak now (app_data w) s)) w
  | OpCheckRewards => set_app_data (fst (check_rewards (app_data w))) w
  | OpDailyReset now =>
      set_app_data (fst (check_daily_reset now (app_data w))) w
  | OpLogExpense now a c d b => log_expense_callback now a c d b w
  | OpUpdateBudget i g f => update_budget_callback i g f w
  | OpGiveTreat now => give_treat_callback now w
  | OpMain now => fst (main now w)
  end.

(** The operations of [ops] in order, from [w]. *)
Definition run (ops : list operation) (w : world) : world :=
  fold_left (fun w op => perform op w) ops w.

(** ** Start of a session: [_load_data] and [_initialize_defaults] *)

(** The dict [json.load] returns for the stored document: a key can be
    missing.  The two date keys can also be present with the value [null]. *)
Record document := mkDocument {
  doc_monthly_income : option float;
  doc_monthly_savings_goal : option float;
  doc_fixed_expenses : option (list (string * float));
  doc_daily_expenses : option (list expense);
  doc_extra_goals : option (list (string * goal));
  doc_pet_name : option string;
  doc_saving_streak : option Z;
  doc_last_streak_date : option (option date);
  doc_daily_treat_given : option bool;
  doc_last_treat_date : option (option date);
  doc_rewards_unlocked : option (list string)
}.

(** [{}] *)
Definition empty_document : document :=
  mkDocument None None None None None None None None None None None.

(** What [json.dump(data, f)] leaves to be loaded again: every key is there. *)
Definition document_of (d : ledger) : document :=
  mkDocument (Some (monthly_income d)) (Some (monthly_savings_goal d))
    (Some (fixed_expenses d)) (Some (daily_expenses d))
    (Some (extra_goals d)) (Some (pet_name d)) (Some (saving_streak d))
    (Some (last_streak_date d)) (Some (daily_treat_given d))
    (Some (last_treat_date d)) (Some (rewards_unlocked d)).

(** [DATA_FILE] on disk: absent, present but not loadable (opening or
    [json.load] raises), or holding a document. *)
Inductive file_content :=
| NoFile
| Unreadable
| Stored (doc : document).

Definition _load_data (file : file_content) : document :=
  match file with
  | Stored doc => doc
  | Unreadable => empty_document
  | NoFile => empty_document
  end.

(** [d.setdefault(key, v)], read back: the value under [key] afterwards. *)
Definition setdefault {A : Type} (present : option A) (v : A) : A :=
  match present with
  | Some x => x
  | None => v
  end.

(** The state [_initialize_defaults] works on: [session] is
    [st.session_state]'s ['app_data'] entry, if any. *)
Record startup := mkStartup {
  session : option ledger;
  disk : file_content;
  disk_writable : bool;
  shown : list ui_event
}.

(** [_save_data], on the file of a [startup]. *)
Definition _save_data_disk (data : ledger) (s : startup) : startup * bool :=
  if disk_writable s
  then (mkStartup (session s) (Stored (document_of data)) (disk_writable s)
          (shown s), true)
  else (mkStartup (session s) (disk s) (disk_writable s)
          (shown s
           ++ [st_error "Could not save data. Check file permissions."]),
        false).

Definition _initialize_defaults (s : startup) : startup :=
  match session s with
  | Some _ => s
  | None =>
      let data := _load_data (disk s) in
      let data :=
        mkLedger
          (setdefault (doc_monthly_income data) 0%float)
          (setdefault (doc_monthly_savings_goal data) 0%float)
          (setdefault (doc_fixed_expenses data) [])
          (setdefault (doc_daily_expenses data) [])
          (setdefault (doc_extra_goals data) [])
          (setdefault (doc_pet_name data) PET_NAME_DEFAULT)
          (setdefault (doc_saving_streak data) 0)
          (setdefault (doc_last_streak_date data) None)
          (setdefault (doc_daily_treat_given data) false)
          (setdefault (doc_last_treat_date data) None)
          (setdefault (doc_rewards_unlocked data) []) in
      let s := mkStartup (Some data) (disk s) (disk_writable s) (shown s) in
      fst (_save_data_disk data s)
  end.

(** ** The forms of the page that [main] handles itself *)

Definition set_extra_goals (v : list (string * goal)) (d : ledger) : ledger :=
  mkLedger (monthly_income d) (monthly_savings_goal d) (fixed_expenses d)
    (daily_expenses d) v (pet_name d) (saving_streak d) (last_streak_date d)
    (daily_treat_given d) (last_treat_date d) (rewards_unlocked d).

Definition set_pet_name (v : string) (d : ledger) : ledger :=
  mkLedger (monthly_income d) (monthly_savings_goal d) (fixed_expenses d)
    (daily_expenses d) (extra_goals d) v (saving_streak d)
    (last_streak_date d) (daily_treat_given d) (last_treat_date d)
    (rewards_unlocked d).

(** [d[key] = v] on a dict: an existing key keeps its place, a new key goes
    last. *)
Fixpoint dict_set {A : Type} (key : string) (v : A) (d : list (string * A))
  : list (string * A) :=
  match d with
  | [] => [(key, v)]
  | (k, x) :: rest =>
      if String.eqb k key then (k, v) :: rest
      else (k, x) :: dict_set key v rest
  end.

(** [d.get(key)] *)
Fixpoint dict_get {A : Type} (key : string) (d : list (string * A))
  : option A :=
  match d with
  | [] => None
  | (k, x) :: rest => if String.eqb k key then Some x else dict_get key rest
  end.

(** The "Save/Update Goal" button, lines 504-515, with the values of its
    three inputs. *)
Definition save_goal_button (goal_name : string)
  (goal_target current_saved : float) (w : world) : world :=
  let data := app_data w in
  if negb (String.eqb goal_name "") && PrimFloat.ltb 0 goal_target
  then
    let data :=
      set_extra_goals
        (dict_set goal_name (mkGoal goal_target current_saved)
           (extra_goals data)) data in
    let w := set_app_data data w in
    let '(w, _) := _save_data data w in
    emit (st_toast ("Goal '" ++ goal_name ++ "' updated!")) w
  else emit (st_error "Goal Name and Target Amount are required.") w.

(** The pet's name input of the sidebar, lines 532-539. *)
Definition pet_name_input (new_pet_name : string) (w : world) : world :=
  let data := app_data w in
  if negb (String.eqb new_pet_name "")
     && negb (String.eqb new_pet_name (pet_name data))
  then
    let data := set_pet_name new_pet_name data in
    let w := set_app_data data w in
    fst (_save_data data w)
  else w.

(** Submission of the budget form, lines 587-597: the entries that are not
    above 0 are dropped, then [update_budget_callback] runs. *)
Definition submit_budget_form (income goal : float)
  (fixed_expenses_inputs : list (string * float)) (w : world) : world :=
  let valid_fixed :=
    filter (fun kv => PrimFloat.ltb 0 (snd kv)) fixed_expenses_inputs in
  update_budget_callback income goal valid_fixed w.

(** ** The calendar, as the statements speak of it *)

(** [_days_in_month(year, month)] of [datetime]. *)
Definition days_in_month (y m : Z) : Z :=
  if (m =? 2) && is_leap y then 29 else DAYS_IN_MONTH m.

(** The dates [datetime] holds and [get_financial_summary] can use: years 1
    to 9999, except December 9999, where [now.replace(day=28) + 4 days]
    overflows. *)
Definition summary_date (d : date) : Prop :=
  1 <= year d <= 9999 /\ 1 <= month d <= 12
  /\ 1 <= day d <= days_in_month (year d) (month d)
  /\ ~ (year d = 9999 /\ month d = 12).

(** The ordinal of the last day of a month, found the way
    [get_financial_summary] finds it, counted from the day before the first
    of the month. *)
Definition month_end_offset (y m : Z) : Z :=
  let next_month := fromordinal (toordinal (mkDate y m 28) + 4) in
  let last_day := fromordinal (toordinal next_month + - day next_month) in
  toordinal last_day - toordinal (mkDate y m 0).

(** The years of one cycle of the calendar, and the months of a year. *)
Definition cycle_years : list Z := map Z.of_nat (seq 1 400).

Definition calendar_months : list Z := map Z.of_nat (seq 1 12).

(** The same date, [k] years later. *)
Definition shift_years (k : Z) (d : date) : date :=
  mkDate (year d + k) (month d) (day d).

(** The expenses that count: dated in the month of [today], not big. *)
Definition counted (today : date) (e : expense) : bool :=
  same_month (date_ e) today && negb (is_big_purchase e).

(** What [_save_data] shows: nothing, or its error when the file cannot be
    written. *)
Definition save_notice (w : world) : list ui_event :=
  if writable w then []
  else [st_error "Could not save data. Check file permissions."].

(** The file holds the ledger of the session. *)
Definition in_sync (w : world) : Prop := data_file w = Some (app_data w).

(** One step of the expense list: expenses are added at the end, each with
    an amount that passed the test of [log_expense_callback]. *)
Definition expenses_step (l l' : list expense) : Prop :=
  exists added,
    l' = l ++ added
    /\ Forall (fun e => PrimFloat.leb (amount e) 0 = false) added.

(** No expense dated [today] counts against the allowance. *)
Definition no_spending_on (today : date) (df : list expense) : Prop :=
  forall e, In e df -> date_eqb (date_ e) today = true ->
            is_big_purchase e = true.

(** ** Vocabulary of the statements, and sample inputs *)

(** The two refusals of [give_treat_callback], by the message shown: the
    spec's AlreadyTreatedToday and OverBudget. *)
Definition already_treated_today (data : ledger) : ui_event :=
  st_error (pet_name data ++ " already got a treat today!").

Definition over_budget (data : ledger) : ui_event :=
  st_error
    ("You need to be on budget (or below) to give " ++ pet_name data
     ++ " a treat!").

(** One step of the reward list: the new list is the old one with names added
    at the end, and it has no duplicate if the old one had none. *)
Definition rewards_step (l l' : list string) : Prop :=
  (exists added, l' = l ++ added) /\ (NoDup l -> NoDup l').

(** A clock reading used by the examples: 2024-04-01, noon.  April has 30
    days, so 30 days remain. *)
Definition april_first_noon : datetime :=
  mkDatetime (mkDate 2024 4 1) (12 * 3600 * 1000000).

Definition fresh_world : world := mkWorld default_data None true [].

(** The reference budget with the expenses [exps]; the other keys do not
    enter the summary. *)
Definition reference_budget (exps : list expense) : ledger :=
  mkLedger 3000 500 [("Rent"%string, 1000%float)] exps [] PET_NAME_DEFAULT 0
    None false None [].

(** A run in which the streak reaches 7 and then drops to 0: seven days within
    budget, then a day over budget.  "Weekly Spa" is unlocked on the seventh
    day and is still there at the end. *)
Definition within_budget_day (d : Z) : list operation :=
  [OpUpdateStreak (mkDatetime (mkDate 2024 4 d) 0) 5; OpCheckRewards].

Definition spa_then_reset : list operation :=
  [OpUpdateStreak (mkDatetime (mkDate 2024 4 8) 0) (-30); OpCheckRewards].

(** Amounts given in cents, as the expense form yields them. *)
Definition amounts_of_cents (cents : list Z) : list float :=
  map (fun c => (Num.float_of_int c / 100)%float) cents.

(** Nine amounts that add up to 50.00, and the day they make when all are
    logged on 2024-04-01 against the reference budget. *)
Definition nine_amounts : list float :=
  amounts_of_cents [445; 597; 205; 108; 875; 846; 773; 455; 696].

Definition nine_expenses_day : world :=
  mkWorld
    (reference_budget
       (map (fun a => mkExpense (mkDate 2024 4 1) a "Food" "" false)
          nine_amounts))
    None true [].

(** [n] amounts between 0.01 and 10.00. *)
Definition sample_amounts (n : nat) : list float :=
  amounts_of_cents
    (map (fun i => (Z.of_nat i * 6) mod 1000 + 1) (seq 0 n)).

(** The first eight of the nine amounts are logged, the streak is 6 since
    yesterday; and the same with nine other amounts that add up to 50.00. *)
Definition eight_expenses_day (cents : list Z) : world :=
  mkWorld
    (set_last_streak_date (Some (mkDate 2024 3 31))
       (set_saving_streak 6
          (reference_budget
             (map (fun a => mkExpense (mkDate 2024 4 1) a "Food" "" false)
                (amounts_of_cents (firstn 8 cents))))))
    None true [].

(** * Properties *)

(** ** Facts on dates and on float comparisons *)

Lemma date_eqb_refl (d : date) : date_eqb d d = true.
Proof.
  unfold date_eqb. now rewrite !Z.eqb_refl.
Qed.

Lemma date_eqb_eq (a b : date) : date_eqb a b = true <-> a = b.
Proof.
  split.
  - unfold date_eqb. destruct a as [ya ma da], b as [yb mb db]; simpl.
    rewrite !andb_true_iff, !Z.eqb_eq. intros [[-> ->] ->]. reflexivity.
  - intros ->. apply date_eqb_refl.
Qed.

Lemma same_month_refl (d : date) : same_month d d = true.
Proof.
  unfold same_month. now rewrite !Z.eqb_refl.
Qed.

Lemma opt_date_eqb_refl (o : option date) : opt_date_eqb o o = true.
Proof.
  destruct o as [d|]; simpl; [apply date_eqb_refl | reflexivity].
Qed.

(** A date two or more days back is not today. *)
Lemma gap_is_not_today (today last : date) :
  1 < date_sub_days today last -> date_eqb last today = false.
Proof.
  intros Hgap. destruct (date_eqb last today) eqn:E; [|reflexivity].
  apply date_eqb_eq in E. subst last.
  unfold date_sub_days in Hgap. lia.
Qed.

(** [x < 0] and [x >= 0] exclude each other (both fail on a NaN). *)
Lemma ltb_zero_not_leb (x : float) :
  PrimFloat.ltb x 0 = true -> PrimFloat.leb 0 x = false.
Proof.
  rewrite ltb_spec, leb_spec.
  replace (Prim2SF 0) with (S754_zero false) by reflexivity.
  destruct (Prim2SF x) as [s | s | | s m e]; try destruct s; cbn; congruence.
Qed.

(** ** Rewards: membership and what [check_rewards] does to the list *)

Lemma reward_in_app (name : string) (l1 l2 : list string) :
  reward_in name (l1 ++ l2) = reward_in name l1 || reward_in name l2.
Proof.
  unfold reward_in. apply existsb_app.
Qed.

Lemma reward_in_In (name : string) (l : list string) :
  reward_in name l = true <-> In name l.
Proof.
  unfold reward_in. rewrite existsb_exists. split.
  - intros [x [Hin Heq]]. apply String.eqb_eq in Heq. now subst.
  - intros Hin. exists name. split; [assumption | apply String.eqb_refl].
Qed.

Lemma reward_notin (name : string) (l : list string) :
  reward_in name l = false <-> ~ In name l.
Proof.
  rewrite <- reward_in_In. destruct (reward_in name l); split; congruence.
Qed.

(** The value [check_rewards] returns, read off the two tests. *)
Lemma check_rewards_result (data : ledger) :
  snd (check_rewards data) =
  if (30 <=? saving_streak data)
     && negb (reward_in "Monthly Vacation" (rewards_unlocked data))
  then Some "Monthly Vacation"%string
  else if (7 <=? saving_streak data)
          && negb (reward_in "Weekly Spa" (rewards_unlocked data))
  then Some "Weekly Spa"%string
  else None.
Proof.
  unfold check_rewards.
  destruct ((7 <=? saving_streak data)
            && negb (reward_in "Weekly Spa" (rewards_unlocked data))) eqn:E7.
  - rewrite reward_in_app. cbn [reward_in existsb String.eqb Ascii.eqb Bool.eqb].
    rewrite !orb_false_r.
    now destruct ((30 <=? saving_streak data)
                  && negb (reward_in "Monthly Vacation" (rewards_unlocked data))).
  - now destruct ((30 <=? saving_streak data)
                  && negb (reward_in "Monthly Vacation" (rewards_unlocked data))).
Qed.

(** The list [check_rewards] leaves: the old one, then the names it adds. *)
Lemma check_rewards_list (data : ledger) :
  rewards_unlocked (fst (check_rewards data)) =
  rewards_unlocked data
  ++ (if (7 <=? saving_streak data)
         && negb (reward_in "Weekly Spa" (rewards_unlocked data))
      then ["Weekly Spa"%string] else [])
  ++ (if (30 <=? saving_streak data)
         && negb (reward_in "Monthly Vacation" (rewards_unlocked data))
      then ["Monthly Vacation"%string] else []).
Proof.
  unfold check_rewards.
  destruct ((7 <=? saving_streak data)
            && negb (reward_in "Weekly Spa" (rewards_unlocked data))) eqn:E7.
  - rewrite reward_in_app. cbn [reward_in existsb String.eqb Ascii.eqb Bool.eqb].
    rewrite !orb_false_r.
    destruct ((30 <=? saving_streak data)
              && negb (reward_in "Monthly Vacation" (rewards_unlocked data)));
      cbn; now rewrite <- ?app_assoc.
  - destruct ((30 <=? saving_streak data)
              && negb (reward_in "Monthly Vacation" (rewards_unlocked data)));
      cbn; now rewrite ?app_nil_r.
Qed.

(** ** Pet mood *)

(** C1, as stated, fails.  In the default document the income is 0; the
    treat button works there (the savings are 0, not negative), and after it
    [get_pet_status] gives the mood "Excited", not an unconfigured one. *)
Lemma unconfigured_overridden_by_treat :
  let data := app_data (give_treat_callback april_first_noon fresh_world) in
  let fin := get_financial_summary april_first_noon data in
  monthly_income data = 0%float
  /\ daily_treat_given data = true
  /\ mood (get_pet_status data fin) = "Excited"%string
  /\ mood (get_pet_status data fin) <> "Unconfigured"%string.
Proof.
  vm_compute. repeat split. discriminate.
Qed.

(** C1, amended: when [monthly_income] is 0 and no treat was given today,
    [get_pet_status] answers with the mood "Neutral", the neutral image and
    the message asking to set up the budget, whatever the savings and the
    expenses of the day; when a treat was given today the mood is "Excited",
    income 0 or not: the treat test comes last and overrides the others. *)
Theorem get_pet_status_income_zero (data : ledger) (fin : financials) :
  PrimFloat.eqb (fin_monthly_income fin) 0 = true ->
  (daily_treat_given data = false ->
   mood (get_pet_status data fin) = "Neutral"%string
   /\ image (get_pet_status data fin) = "🐱"%string
   /\ message (get_pet_status data fin)
      = "Please set up your budget first in the sidebar!"%string)
  /\ (daily_treat_given data = true ->
      mood (get_pet_status data fin) = "Excited"%string).
Proof.
  intros Hzero. unfold get_pet_status. rewrite Hzero.
  split; intros ->; cbn; repeat split.
Qed.

Lemma get_pet_status_income_zero_witness :
  (mood (get_pet_status default_data
           (get_financial_summary april_first_noon default_data))
   = "Neutral"%string
   /\ image (get_pet_status default_data
               (get_financial_summary april_first_noon default_data))
      = "🐱"%string
   /\ message (get_pet_status default_data
                 (get_financial_summary april_first_noon default_data))
      = "Please set up your budget first in the sidebar!"%string).
Proof.
  apply (get_pet_status_income_zero default_data
           (get_financial_summary april_first_noon default_data));
    reflexivity.
Defined.

(** ** Rewards *)

(** C2, as stated, fails: with a streak of 30 and nothing unlocked, the call
    reports "Monthly Vacation", the later threshold, not "Weekly Spa". *)
Lemma check_rewards_reports_not_first :
  snd (check_rewards (set_saving_streak 30 default_data))
  = Some "Monthly Vacation"%string
  /\ snd (check_rewards (set_saving_streak 30 default_data))
     <> Some "Weekly Spa"%string.
Proof.
  split; [reflexivity | discriminate].
Qed.

(** C2, amended: a call of [check_rewards] reports at most one newly unlocked
    reward (its result is one name or [None]), and when the call crosses both
    thresholds at once (streak 30 or more, neither reward unlocked yet) the
    reward it reports is the last threshold crossed, "Monthly Vacation". *)
Theorem check_rewards_reports_last (data : ledger) :
  30 <= saving_streak data ->
  ~ In "Weekly Spa"%string (rewards_unlocked data) ->
  ~ In "Monthly Vacation"%string (rewards_unlocked data) ->
  snd (check_rewards data) = Some "Monthly Vacation"%string.
Proof.
  intros Hstreak _ Hmv. rewrite check_rewards_result.
  apply reward_notin in Hmv. rewrite Hmv.
  apply Z.leb_le in Hstreak. now rewrite Hstreak.
Qed.

Lemma check_rewards_reports_last_witness :
  snd (check_rewards (set_saving_streak 35 default_data))
  = Some "Monthly Vacation"%string.
Proof.
  apply (check_rewards_reports_last (set_saving_streak 35 default_data));
    cbn; [lia | tauto | tauto].
Defined.

(** C10: with a streak of 30 or more and neither reward unlocked, one call
    appends "Weekly Spa" then "Monthly Vacation" to [rewards_unlocked], and
    returns one name only, "Monthly Vacation". *)
Theorem check_rewards_appends_both (data : ledger) :
  30 <= saving_streak data ->
  reward_in "Weekly Spa" (rewards_unlocked data) = false ->
  reward_in "Monthly Vacation" (rewards_unlocked data) = false ->
  rewards_unlocked (fst (check_rewards data))
  = rewards_unlocked data ++ ["Weekly Spa"; "Monthly Vacation"]%string
  /\ snd (check_rewards data) = Some "Monthly Vacation"%string.
Proof.
  intros Hstreak Hws Hmv. split.
  - rewrite check_rewards_list, Hws, Hmv.
    assert (H7 : (7 <=? saving_streak data) = true) by (apply Z.leb_le; lia).
    assert (H30 : (30 <=? saving_streak data) = true) by (now apply Z.leb_le).
    rewrite H7, H30. reflexivity.
  - rewrite check_rewards_result, Hmv.
    assert (H30 : (30 <=? saving_streak data) = true) by (now apply Z.leb_le).
    now rewrite H30.
Qed.

Lemma check_rewards_appends_both_witness :
  rewards_unlocked (fst (check_rewards (set_saving_streak 30 default_data)))
  = ["Weekly Spa"; "Monthly Vacation"]%string
  /\ snd (check_rewards (set_saving_streak 30 default_data))
     = Some "Monthly Vacation"%string.
Proof.
  apply (check_rewards_appends_both (set_saving_streak 30 default_data));
    [cbn; lia | reflexivity | reflexivity].
Defined.

(** ** Streak *)

(** What [update_streak] returns is the streak it leaves in the ledger. *)
Lemma update_streak_returns_streak (now : datetime) (data : ledger)
  (s : float) :
  snd (update_streak now data s) = saving_streak (fst (update_streak now data s)).
Proof.
  reflexivity.
Qed.

(** After [update_streak] the last streak date is today, on every path. *)
Lemma update_streak_stamps_today (now : datetime) (data : ledger) (s : float) :
  last_streak_date (fst (update_streak now data s)) = Some (dt_date now).
Proof.
  unfold update_streak.
  destruct (PrimFloat.leb 0 s); [|reflexivity].
  destruct (opt_date_eqb (last_streak_date data) (Some (dt_date now))) eqn:E;
    cbn [negb fst].
  - destruct (last_streak_date data) as [l|]; simpl in E; [|discriminate].
    apply date_eqb_eq in E. now subst.
  - reflexivity.
Qed.

(** C3: [update_streak] is idempotent within a day: a second call with the
    same clock reading and the same savings leaves the ledger (so the streak
    and the last streak date) as the first call left it, and returns the same
    streak. *)
Theorem update_streak_idempotent (now : datetime) (data : ledger) (s : float) :
  update_streak now (fst (update_streak now data s)) s
  = update_streak now data s.
Proof.
  assert (Hfst :
    fst (update_streak now (fst (update_streak now data s)) s)
    = fst (update_streak now data s)).
  { pose proof (update_streak_stamps_today now data s) as Hlast.
    remember (fst (update_streak now data s)) as d1 eqn:Hd1.
    unfold update_streak at 1. rewrite Hlast, opt_date_eqb_refl.
    destruct (PrimFloat.leb 0 s) eqn:Hs; [reflexivity|].
    subst d1. unfold update_streak. rewrite Hs. reflexivity. }
  apply injective_projections; [exact Hfst|].
  rewrite (update_streak_returns_streak now data s).
  rewrite update_streak_returns_streak. now rewrite Hfst.
Qed.

(** C4: when today's savings are negative, [update_streak] sets the streak to
    0 and the last streak date to today, whatever they were. *)
Theorem update_streak_negative_resets (now : datetime) (data : ledger)
  (s : float) :
  PrimFloat.ltb s 0 = true ->
  saving_streak (fst (update_streak now data s)) = 0
  /\ last_streak_date (fst (update_streak now data s)) = Some (dt_date now)
  /\ snd (update_streak now data s) = 0.
Proof.
  intros Hneg. apply ltb_zero_not_leb in Hneg.
  unfold update_streak. rewrite Hneg. cbn. repeat split.
Qed.

Lemma update_streak_negative_resets_witness :
  saving_streak
    (fst (update_streak april_first_noon
            (set_last_streak_date (Some (mkDate 2024 3 31))
               (set_saving_streak 12 default_data)) (-30)%float)) = 0
  /\ last_streak_date
       (fst (update_streak april_first_noon
               (set_last_streak_date (Some (mkDate 2024 3 31))
                  (set_saving_streak 12 default_data)) (-30)%float))
     = Some (mkDate 2024 4 1)
  /\ snd (update_streak april_first_noon
            (set_last_streak_date (Some (mkDate 2024 3 31))
               (set_saving_streak 12 default_data)) (-30)%float) = 0.
Proof.
  apply (update_streak_negative_resets april_first_noon
           (set_last_streak_date (Some (mkDate 2024 3 31))
              (set_saving_streak 12 default_data)) (-30)%float).
  reflexivity.
Defined.

(** C5: when the last streak date is absent, or more than one calendar day
    before today, and today's savings are not negative, [update_streak] sets
    the streak to 1 and the last streak date to today. *)
Theorem update_streak_gap_restarts (now : datetime) (data : ledger)
  (s : float) :
  PrimFloat.leb 0 s = true ->
  (last_streak_date data = None
   \/ exists last, last_streak_date data = Some last
                   /\ 1 < date_sub_days (dt_date now) last) ->
  saving_streak (fst (update_streak now data s)) = 1
  /\ last_streak_date (fst (update_streak now data s)) = Some (dt_date now).
Proof.
  intros Hs Hlast. unfold update_streak. rewrite Hs.
  destruct Hlast as [Hnone | [last [Hsome Hgap]]].
  - rewrite Hnone. cbn. split; reflexivity.
  - rewrite Hsome. cbn [opt_date_eqb].
    rewrite (gap_is_not_today _ _ Hgap). cbn [negb].
    assert (H1 : (date_sub_days (dt_date now) last =? 1) = false)
      by (apply Z.eqb_neq; lia).
    assert (H2 : (1 <? date_sub_days (dt_date now) last) = true)
      by (now apply Z.ltb_lt).
    rewrite H1, H2. cbn. split; reflexivity.
Qed.

(** The example of the spec: last streak date three days ago, streak 10. *)
Lemma update_streak_gap_restarts_witness :
  saving_streak
    (fst (update_streak (mkDatetime (mkDate 2024 4 4) 0)
            (set_last_streak_date (Some (mkDate 2024 4 1))
               (set_saving_streak 10 default_data)) 5%float)) = 1
  /\ last_streak_date
       (fst (update_streak (mkDatetime (mkDate 2024 4 4) 0)
               (set_last_streak_date (Some (mkDate 2024 4 1))
                  (set_saving_streak 10 default_data)) 5%float))
     = Some (mkDate 2024 4 4).
Proof.
  apply (update_streak_gap_restarts (mkDatetime (mkDate 2024 4 4) 0)
           (set_last_streak_date (Some (mkDate 2024 4 1))
              (set_saving_streak 10 default_data)) 5%float).
  - reflexivity.
  - right. exists (mkDate 2024 4 1). split; [reflexivity | vm_compute; reflexivity].
Defined.

(** ** What the core functions leave alone *)

Lemma update_streak_frame (now : datetime) (data : ledger) (s : float) :
  let data' := fst (update_streak now data s) in
  daily_treat_given data' = daily_treat_given data
  /\ last_treat_date data' = last_treat_date data
  /\ rewards_unlocked data' = rewards_unlocked data
  /\ pet_name data' = pet_name data
  /\ daily_expenses data' = daily_expenses data.
Proof.
  unfold update_streak.
  destruct (PrimFloat.leb 0 s); [|cbn; tauto].
  destruct (negb (opt_date_eqb (last_streak_date data) (Some (dt_date now))));
    [|cbn; tauto].
  destruct (last_streak_date data) as [l|]; [|cbn; tauto].
  destruct (date_sub_days (dt_date now) l =? 1); [cbn; tauto|].
  destruct (1 <? date_sub_days (dt_date now) l); cbn; tauto.
Qed.

Lemma check_rewards_frame (data : ledger) :
  let data' := fst (check_rewards data) in
  daily_treat_given data' = daily_treat_given data
  /\ last_treat_date data' = last_treat_date data
  /\ saving_streak data' = saving_streak data
  /\ last_streak_date data' = last_streak_date data
  /\ pet_name data' = pet_name data
  /\ daily_expenses data' = daily_expenses data.
Proof.
  unfold check_rewards.
  destruct ((7 <=? saving_streak data)
            && negb (reward_in "Weekly Spa" (rewards_unlocked data)));
    match goal with
    | |- context [if ?c then _ else _] => destruct c
    end; cbn; tauto.
Qed.

Lemma check_daily_reset_same_day (now : datetime) (data : ledger) :
  last_treat_date data = Some (dt_date now) ->
  check_daily_reset now data = (data, false).
Proof.
  intros H. unfold check_daily_reset. now rewrite H, opt_date_eqb_refl.
Qed.

Lemma app_data_emit (e : ui_event) (w : world) :
  app_data (emit e w) = app_data w.
Proof.
  reflexivity.
Qed.

Lemma app_data_save (data : ledger) (w : world) :
  app_data (fst (_save_data data w)) = app_data w.
Proof.
  unfold _save_data. now destruct (writable w).
Qed.

(** The ledger [main] leaves in the session. *)
Lemma main_app_data (now : datetime) (w : world) :
  app_data (fst (main now w)) =
  let data := fst (check_daily_reset now (app_data w)) in
  let fin := get_financial_summary now data in
  fst (check_rewards (fst (update_streak now data (todays_savings fin)))).
Proof.
  unfold main.
  destruct (check_daily_reset now (app_data w)) as [d0 changed].
  cbv zeta. cbn [fst].
  destruct (update_streak now d0 _) as [d1 r1]. cbn [fst].
  destruct (check_rewards d1) as [d2 r2]. cbn [fst].
  match goal with
  | |- context [_save_data d2 ?w0] =>
      pose proof (app_data_save d2 w0) as Hs;
      destruct (_save_data d2 w0) as [w1 ok]
  end.
  cbn [fst] in *. exact Hs.
Qed.

(** The ledger [log_expense_callback] leaves in the session. *)
Lemma log_expense_app_data (now : datetime) (a : float) (c d : string)
  (b : bool) (w : world) :
  app_data (log_expense_callback now a c d b w) =
  if PrimFloat.leb a 0 then app_data w
  else
    let data :=
      set_daily_expenses
        (daily_expenses (app_data w) ++ [mkExpense (dt_date now) a c d b])
        (app_data w) in
    let fin := get_financial_summary now data in
    fst (check_rewards (fst (update_streak now data (todays_savings fin)))).
Proof.
  unfold log_expense_callback.
  destruct (PrimFloat.leb a 0); [reflexivity|].
  cbv zeta.
  destruct (update_streak now _ _) as [d1 r1]. cbn [fst].
  destruct (check_rewards d1) as [d2 r2]. cbn [fst].
  match goal with
  | |- context [_save_data d2 ?w0] =>
      pose proof (app_data_save d2 w0) as Hs;
      destruct (_save_data d2 w0) as [w1 ok]
  end.
  cbn [fst] in Hs. now destruct r2.
Qed.

(** ** Treats *)

(** A treat given today survives a rerun of the page on the same day. *)
Lemma main_keeps_treat_same_day (now : datetime) (w : world) :
  daily_treat_given (app_data w) = true ->
  last_treat_date (app_data w) = Some (dt_date now) ->
  daily_treat_given (app_data (fst (main now w))) = true
  /\ last_treat_date (app_data (fst (main now w))) = Some (dt_date now)
  /\ pet_name (app_data (fst (main now w))) = pet_name (app_data w).
Proof.
  intros Hgiven Hdate. rewrite main_app_data.
  rewrite (check_daily_reset_same_day _ _ Hdate). cbv zeta. cbn [fst].
  destruct (check_rewards_frame
              (fst (update_streak now (app_data w)
                      (todays_savings
                         (get_financial_summary now (app_data w))))))
    as (-> & -> & _ & _ & -> & _).
  destruct (update_streak_frame now (app_data w)
              (todays_savings (get_financial_summary now (app_data w))))
    as (-> & -> & _ & -> & _).
  auto.
Qed.

(** C6: [give_treat_callback] gives the treat only when none was given today
    and today's savings are not negative.  With the flag already set it shows
    the already-treated error; with negative savings it shows the over-budget
    error; in both refusals the session's ledger and the file are as before.
    When it gives the treat it sets the flag and stamps today, so that a
    second call, at once or after a rerun of the page on the same day, is
    refused as already treated and changes nothing. *)
Theorem give_treat_callback_outcomes (now : datetime) (w : world) :
  let data := app_data w in
  let s := todays_savings (get_financial_summary now data) in
  (daily_treat_given data = true ->
   give_treat_callback now w = emit (already_treated_today data) w)
  /\ (daily_treat_given data = false -> PrimFloat.ltb s 0 = true ->
      give_treat_callback now w = emit (over_budget data) w)
  /\ (app_data (give_treat_callback now w) <> data ->
      daily_treat_given data = false /\ PrimFloat.leb 0 s = true)
  /\ (daily_treat_given data = false -> PrimFloat.leb 0 s = true ->
      let w1 := give_treat_callback now w in
      app_data w1
      = set_last_treat_date (Some (dt_date now))
          (set_daily_treat_given true data)
      /\ (forall now2,
             give_treat_callback now2 w1
             = emit (already_treated_today (app_data w1)) w1)
      /\ (forall now2 now3, dt_date now2 = dt_date now ->
             let w2 := fst (main now2 w1) in
             give_treat_callback now3 w2
             = emit (already_treated_today data) w2)).
Proof.
  cbv zeta.
  assert (Hgive :
    daily_treat_given (app_data w) = false ->
    PrimFloat.leb 0
      (todays_savings (get_financial_summary now (app_data w))) = true ->
    app_data (give_treat_callback now w)
    = set_last_treat_date (Some (dt_date now))
        (set_daily_treat_given true (app_data w))).
  { intros Hfree Hs. unfold give_treat_callback. rewrite Hfree, Hs.
    unfold _save_data. now destruct (writable _). }
  split; [|split; [|split]].
  - intros Hgiven. unfold give_treat_callback. now rewrite Hgiven.
  - intros Hfree Hneg. unfold give_treat_callback. rewrite Hfree.
    now rewrite (ltb_zero_not_leb _ Hneg).
  - intros Hchanged.
    destruct (daily_treat_given (app_data w)) eqn:Hgiven.
    + exfalso. apply Hchanged.
      unfold give_treat_callback. now rewrite Hgiven.
    + split; [reflexivity|].
      destruct (PrimFloat.leb 0 _) eqn:Hs; [reflexivity|].
      exfalso. apply Hchanged.
      unfold give_treat_callback. now rewrite Hgiven, Hs.
  - intros Hfree Hs. specialize (Hgive Hfree Hs).
    split; [exact Hgive | split].
    + intros now2. unfold give_treat_callback at 1.
      now rewrite Hgive.
    + intros now2 now3 Hday.
      destruct (main_keeps_treat_same_day now2 (give_treat_callback now w))
        as (Hflag & _ & Hname).
      * now rewrite Hgive.
      * rewrite Hgive, Hday. reflexivity.
      * unfold give_treat_callback at 1. rewrite Hflag.
        unfold already_treated_today. rewrite Hname, Hgive. reflexivity.
Qed.

(** Two presses of the treat button on 2024-04-01 in the default session. *)
Lemma give_treat_callback_outcomes_witness :
  give_treat_callback april_first_noon
    (give_treat_callback april_first_noon fresh_world)
  = emit
      (already_treated_today
         (app_data (give_treat_callback april_first_noon fresh_world)))
      (give_treat_callback april_first_noon fresh_world).
Proof.
  destruct (give_treat_callback_outcomes april_first_noon fresh_world)
    as (_ & _ & _ & Hgive).
  assert (Hfree : daily_treat_given (app_data fresh_world) = false)
    by reflexivity.
  assert (Hs : PrimFloat.leb 0
                 (todays_savings
                    (get_financial_summary april_first_noon
                       (app_data fresh_world))) = true)
    by (vm_compute; reflexivity).
  destruct (Hgive Hfree Hs) as (_ & Hsecond & _).
  exact (Hsecond april_first_noon).
Defined.

(** ** Logging an expense *)

(** C8: [log_expense_callback] refuses an amount that is 0 or less with the
    error "Expense amount must be positive." and changes nothing else: the
    session's ledger (expenses, streak, last streak date, rewards) and the
    file are as before. *)
Theorem log_expense_rejects_nonpositive (now : datetime) (a : float)
  (c d : string) (b : bool) (w : world) :
  PrimFloat.leb a 0 = true ->
  log_expense_callback now a c d b w
  = emit (st_error "Expense amount must be positive.") w
  /\ app_data (log_expense_callback now a c d b w) = app_data w
  /\ data_file (log_expense_callback now a c d b w) = data_file w.
Proof.
  intros Hle. unfold log_expense_callback. rewrite Hle. repeat split.
Qed.

Lemma log_expense_rejects_nonpositive_witness :
  log_expense_callback april_first_noon (-5)%float "Food" "" false fresh_world
  = emit (st_error "Expense amount must be positive.") fresh_world
  /\ app_data
       (log_expense_callback april_first_noon (-5)%float "Food" "" false
          fresh_world) = app_data fresh_world
  /\ data_file
       (log_expense_callback april_first_noon (-5)%float "Food" "" false
          fresh_world) = data_file fresh_world.
Proof.
  apply (log_expense_rejects_nonpositive april_first_noon (-5)%float
           "Food" "" false fresh_world).
  reflexivity.
Defined.

(** ** The unlocked rewards along a run *)

Lemma rewards_step_refl (l : list string) : rewards_step l l.
Proof.
  split; [exists []; now rewrite app_nil_r | auto].
Qed.

Lemma rewards_step_trans (l1 l2 l3 : list string) :
  rewards_step l1 l2 -> rewards_step l2 l3 -> rewards_step l1 l3.
Proof.
  intros [[a1 ->] Hnd1] [[a2 ->] Hnd2]. split.
  - exists (a1 ++ a2). now rewrite app_assoc.
  - auto.
Qed.

Lemma rewards_step_eq (l l' : list string) : l' = l -> rewards_step l l'.
Proof.
  intros ->. apply rewards_step_refl.
Qed.

Lemma check_rewards_step (data : ledger) :
  rewards_step (rewards_unlocked data)
    (rewards_unlocked (fst (check_rewards data))).
Proof.
  rewrite check_rewards_list. split; [eexists; reflexivity|].
  intros Hnd.
  destruct (7 <=? saving_streak data); cbn [andb];
    destruct (30 <=? saving_streak data); cbn [andb];
    destruct (reward_in "Weekly Spa" (rewards_unlocked data)) eqn:Hws;
    destruct (reward_in "Monthly Vacation" (rewards_unlocked data)) eqn:Hmv;
    cbn [negb app]; rewrite ?app_nil_r; try assumption;
    try apply reward_notin in Hws; try apply reward_notin in Hmv;
    (apply NoDup_app;
     [ assumption
     | repeat constructor; cbn; intuition discriminate
     | intros a Ha Hin; cbn in Hin; intuition (subst; contradiction) ]).
Qed.

Lemma perform_rewards_step (op : operation) (w : world) :
  rewards_step (rewards_unlocked (app_data w))
    (rewards_unlocked (app_data (perform op w))).
Proof.
  destruct op as [now s | | now | now a c d b | i g f | now | now];
    cbn [perform app_data set_app_data].
  - apply rewards_step_eq, update_streak_frame.
  - apply check_rewards_step.
  - apply rewards_step_eq. unfold check_daily_reset.
    now destruct (negb _).
  - rewrite log_expense_app_data.
    destruct (PrimFloat.leb a 0); [apply rewards_step_refl|].
    cbv zeta. eapply rewards_step_trans; [|apply check_rewards_step].
    apply rewards_step_eq.
    now rewrite (proj1 (proj2 (proj2 (update_streak_frame _ _ _)))).
  - apply rewards_step_eq. unfold update_budget_callback.
    destruct (_ || _); [reflexivity|].
    destruct (PrimFloat.ltb i _); [reflexivity|].
    unfold _save_data. now destruct (writable _).
  - apply rewards_step_eq. unfold give_treat_callback.
    destruct (daily_treat_given _); [reflexivity|].
    destruct (PrimFloat.leb 0 _); [|reflexivity].
    unfold _save_data. now destruct (writable _).
  - rewrite main_app_data. cbv zeta.
    eapply rewards_step_trans; [|apply check_rewards_step].
    apply rewards_step_eq.
    rewrite (proj1 (proj2 (proj2 (update_streak_frame _ _ _)))).
    unfold check_daily_reset. now destruct (negb _).
Qed.

(** C7: along every run of operations (streak updates, reward checks, daily
    resets, logged expenses, budget updates, treats, reruns of the page) the
    list [rewards_unlocked] only grows at its end: every name in it stays in
    it, and if it had no duplicate before the run it has none after.  So
    "Weekly Spa", once unlocked, stays unlocked, whatever the streak becomes. *)
Theorem rewards_unlocked_monotone (ops : list operation) (w : world) :
  (exists added,
      rewards_unlocked (app_data (run ops w))
      = rewards_unlocked (app_data w) ++ added)
  /\ (forall name,
         In name (rewards_unlocked (app_data w)) ->
         In name (rewards_unlocked (app_data (run ops w))))
  /\ (NoDup (rewards_unlocked (app_data w)) ->
      NoDup (rewards_unlocked (app_data (run ops w)))).
Proof.
  assert (Hstep : rewards_step (rewards_unlocked (app_data w))
                    (rewards_unlocked (app_data (run ops w)))).
  { revert w. induction ops as [|op ops IH]; intros w.
    - apply rewards_step_refl.
    - cbn [run fold_left]. eapply rewards_step_trans.
      + apply (perform_rewards_step op w).
      + apply IH. }
  destruct Hstep as [[added Hadd] Hnd].
  split; [now exists added | split; [|exact Hnd]].
  intros name Hin. rewrite Hadd. apply in_or_app. now left.
Qed.

Lemma rewards_unlocked_monotone_witness :
  let w7 :=
    run (flat_map within_budget_day [1; 2; 3; 4; 5; 6; 7]) fresh_world in
  rewards_unlocked (app_data w7) = ["Weekly Spa"%string]
  /\ saving_streak (app_data (run spa_then_reset w7)) = 0
  /\ In "Weekly Spa"%string
       (rewards_unlocked (app_data (run spa_then_reset w7))).
Proof.
  cbv zeta. split; [vm_compute; reflexivity|].
  split; [vm_compute; reflexivity|].
  apply (rewards_unlocked_monotone spa_then_reset
           (run (flat_map within_budget_day [1; 2; 3; 4; 5; 6; 7])
              fresh_world)).
  vm_compute. now left.
Defined.

(** ** The summary on the reference budget *)

(** The summary reads four keys of the ledger only. *)
Lemma get_financial_summary_ext (now : datetime) (d d' : ledger) :
  monthly_income d = monthly_income d' ->
  fixed_expenses d = fixed_expenses d' ->
  monthly_savings_goal d = monthly_savings_goal d' ->
  daily_expenses d = daily_expenses d' ->
  get_financial_summary now d = get_financial_summary now d'.
Proof.
  unfold get_financial_summary. now intros -> -> -> ->.
Qed.

Lemma update_streak_budget_frame (now : datetime) (data : ledger) (s : float) :
  let data' := fst (update_streak now data s) in
  monthly_income data' = monthly_income data
  /\ fixed_expenses data' = fixed_expenses data
  /\ monthly_savings_goal data' = monthly_savings_goal data.
Proof.
  unfold update_streak.
  destruct (PrimFloat.leb 0 s); [|cbn; tauto].
  destruct (negb (opt_date_eqb (last_streak_date data) (Some (dt_date now))));
    [|cbn; tauto].
  destruct (last_streak_date data) as [l|]; [|cbn; tauto].
  destruct (date_sub_days (dt_date now) l =? 1); [cbn; tauto|].
  destruct (1 <? date_sub_days (dt_date now) l); cbn; tauto.
Qed.

Lemma check_rewards_budget_frame (data : ledger) :
  let data' := fst (check_rewards data) in
  monthly_income data' = monthly_income data
  /\ fixed_expenses data' = fixed_expenses data
  /\ monthly_savings_goal data' = monthly_savings_goal data.
Proof.
  unfold check_rewards.
  destruct ((7 <=? saving_streak data)
            && negb (reward_in "Weekly Spa" (rewards_unlocked data)));
    match goal with
    | |- context [if ?c then _ else _] => destruct c
    end; cbn; tauto.
Qed.

Lemma remaining_days_summary (now : datetime) (data : ledger) :
  remaining_days (get_financial_summary now data) = remaining_days_at now.
Proof.
  unfold get_financial_summary. now destruct (daily_expenses data).
Qed.

Lemma reference_summary_before (now : datetime) :
  remaining_days_at now = 30 ->
  get_financial_summary now (reference_budget [])
  = mkFinancials 3000 1000 500 50 0 50 0 0 30.
Proof.
  intros Hdays. unfold get_financial_summary, reference_budget.
  cbn [monthly_income fixed_expenses monthly_savings_goal daily_expenses].
  rewrite Hdays. reflexivity.
Qed.

Lemma reference_summary_after (now : datetime) (c d : string) :
  remaining_days_at now = 30 ->
  get_financial_summary now
    (reference_budget [mkExpense (dt_date now) 30 c d false])
  = mkFinancials 3000 1000 500 50 30 20 30 60 30.
Proof.
  intros Hdays. unfold get_financial_summary, reference_budget.
  cbn [monthly_income fixed_expenses monthly_savings_goal daily_expenses
       filter date_ ].
  rewrite Hdays, same_month_refl, date_eqb_refl. reflexivity.
Qed.

(** C9: income 3000, fixed expenses Rent 1000, goal 500, 30 days remaining:
    the disposable income is 1500 and the daily allowance 50.  After logging
    one expense of 30 dated today that is not a big purchase, the summary
    gives 30 spent today, savings of 20 and 60 percent of the allowance used,
    and with no treat given the pet's mood is "Happy". *)
Theorem reference_budget_scenario (now : datetime) (w : world)
  (c d : string) :
  monthly_income (app_data w) = 3000%float ->
  fixed_expenses (app_data w) = [("Rent"%string, 1000%float)] ->
  monthly_savings_goal (app_data w) = 500%float ->
  daily_expenses (app_data w) = [] ->
  daily_treat_given (app_data w) = false ->
  remaining_days (get_financial_summary now (app_data w)) = 30 ->
  let fin0 := get_financial_summary now (app_data w) in
  let w1 := log_expense_callback now 30 c d false w in
  let fin1 := get_financial_summary now (app_data w1) in
  (fin_monthly_income fin0 - fixed_expenses_sum fin0 - target_saving fin0
   = 1500)%float
  /\ daily_allowance fin0 = 50%float
  /\ daily_expenses (app_data w1) = [mkExpense (dt_date now) 30 c d false]
  /\ todays_expenses fin1 = 30%float
  /\ todays_savings fin1 = 20%float
  /\ daily_used_percent fin1 = 60%float
  /\ mood (get_pet_status (app_data w1) fin1) = "Happy"%string.
Proof.
  intros Hinc Hfix Hgoal Hexp Htreat Hdays. cbv zeta.
  rewrite remaining_days_summary in Hdays.
  assert (H0 : get_financial_summary now (app_data w)
               = get_financial_summary now (reference_budget [])).
  { apply get_financial_summary_ext; assumption. }
  rewrite H0, (reference_summary_before now Hdays).
  pose proof (log_expense_app_data now 30 c d false w) as Hw1.
  assert (Hpos : PrimFloat.leb 30 0 = false) by reflexivity.
  rewrite Hpos in Hw1. cbv zeta in Hw1.
  rewrite Hexp in Hw1. cbn [app] in Hw1.
  set (data1 := set_daily_expenses [mkExpense (dt_date now) 30 c d false]
                  (app_data w)) in Hw1.
  set (s1 := todays_savings (get_financial_summary now data1)) in Hw1.
  destruct (update_streak_frame now data1 s1) as (Ut & _ & _ & _ & Ue).
  destruct (update_streak_budget_frame now data1 s1) as (Ui & Uf & Ug).
  destruct (check_rewards_frame (fst (update_streak now data1 s1)))
    as (Ct & _ & _ & _ & _ & Ce).
  destruct (check_rewards_budget_frame (fst (update_streak now data1 s1)))
    as (Ci & Cf & Cg).
  rewrite <- Hw1 in Ct, Ce, Ci, Cf, Cg.
  assert (H1 : get_financial_summary now
                 (app_data (log_expense_callback now 30 c d false w))
               = get_financial_summary now
                   (reference_budget [mkExpense (dt_date now) 30 c d false])).
  { apply get_financial_summary_ext.
    - now rewrite Ci, Ui.
    - now rewrite Cf, Uf.
    - now rewrite Cg, Ug.
    - now rewrite Ce, Ue. }
  rewrite H1, (reference_summary_after now c d Hdays).
  repeat split.
  - now rewrite Ce, Ue.
  - unfold get_pet_status. rewrite Ct, Ut.
    change (daily_treat_given data1) with (daily_treat_given (app_data w)).
    rewrite Htreat. reflexivity.
Qed.

(** The scenario on 2024-04-01, from the reference budget. *)
Lemma reference_budget_scenario_witness :
  let now := april_first_noon in
  let w := mkWorld (reference_budget []) None true [] in
  let fin0 := get_financial_summary now (app_data w) in
  let w1 := log_expense_callback now 30 "Food" "lunch" false w in
  let fin1 := get_financial_summary now (app_data w1) in
  remaining_days fin0 = 30
  /\ (fin_monthly_income fin0 - fixed_expenses_sum fin0 - target_saving fin0
      = 1500)%float
  /\ daily_allowance fin0 = 50%float
  /\ daily_expenses (app_data w1)
     = [mkExpense (dt_date now) 30 "Food" "lunch" false]
  /\ todays_expenses fin1 = 30%float
  /\ todays_savings fin1 = 20%float
  /\ daily_used_percent fin1 = 60%float
  /\ mood (get_pet_status (app_data w1) fin1) = "Happy"%string.
Proof.
  cbv zeta. split; [vm_compute; reflexivity|].
  apply (reference_budget_scenario april_first_noon
           (mkWorld (reference_budget []) None true []) "Food" "lunch");
    vm_compute; reflexivity.
Defined.

(** * Further properties of the engine *)

(** ** Float comparisons and the summary's fields *)

Lemma ltb_leb (x y : float) :
  PrimFloat.ltb x y = true -> PrimFloat.leb x y = true.
Proof.
  rewrite ltb_spec, leb_spec. unfold SFltb, SFleb.
  destruct (SFcompare (Prim2SF x) (Prim2SF y)) as [[ | | ]|]; congruence.
Qed.

(** [x - 0] is [x], for every float, the zeros, infinities and NaN included. *)
Lemma sub_zero (x : float) : (x - 0)%float = x.
Proof.
  apply Prim2SF_inj. rewrite sub_spec.
  replace (Prim2SF 0) with (S754_zero false) by reflexivity.
  destruct (Prim2SF x) as [s | s | | s m e]; try destruct s; reflexivity.
Qed.

Lemma max0_nonneg (x : float) : PrimFloat.leb 0 (Num.max0 x) = true.
Proof.
  unfold Num.max0. destruct (PrimFloat.ltb 0 x) eqn:E.
  - now apply ltb_leb.
  - reflexivity.
Qed.

Lemma min100_le (x : float) : PrimFloat.leb (Num.min100 x) 100 = true.
Proof.
  unfold Num.min100. destruct (PrimFloat.ltb x 100) eqn:E.
  - now apply ltb_leb.
  - reflexivity.
Qed.

(** The summary, field by field. *)
Lemma get_financial_summary_eq (now : datetime) (data : ledger) :
  get_financial_summary now data =
  let allowance :=
    if 0 <? remaining_days_at now
    then Num.max0
           ((monthly_income data - Num.sum (map snd (fixed_expenses data))
             - monthly_savings_goal data)
            / Num.float_of_int (remaining_days_at now))%float
    else 0%float in
  let spent :=
    match daily_expenses data with
    | [] => 0%float
    | _ :: _ =>
        not_big_amount_sum
          (filter (fun e => date_eqb (date_ e) (dt_date now))
             (daily_expenses data))
    end in
  let total :=
    match daily_expenses data with
    | [] => 0%float
    | _ :: _ =>
        not_big_amount_sum
          (filter (fun e => same_month (date_ e) (dt_date now))
             (daily_expenses data))
    end in
  mkFinancials (monthly_income data)
    (Num.sum (map snd (fixed_expenses data))) (monthly_savings_goal data)
    allowance spent (allowance - spent)%float total
    (if PrimFloat.ltb 0 allowance
     then Num.min100 (spent / allowance * 100)%float
     else 0%float)
    (remaining_days_at now).
Proof.
  unfold get_financial_summary.
  destruct (daily_expenses data); cbv beta zeta iota; reflexivity.
Qed.

Lemma daily_allowance_summary (now : datetime) (data : ledger) :
  daily_allowance (get_financial_summary now data) =
  if 0 <? remaining_days_at now
  then Num.max0
         ((monthly_income data - Num.sum (map snd (fixed_expenses data))
           - monthly_savings_goal data)
          / Num.float_of_int (remaining_days_at now))%float
  else 0%float.
Proof.
  rewrite get_financial_summary_eq. cbv zeta.
  cbn [fin_monthly_income daily_allowance todays_expenses todays_savings
       daily_used_percent].
  reflexivity.
Qed.

Lemma todays_expenses_summary (now : datetime) (data : ledger) :
  todays_expenses (get_financial_summary now data) =
  match daily_expenses data with
  | [] => 0%float
  | _ :: _ =>
      not_big_amount_sum
        (filter (fun e => date_eqb (date_ e) (dt_date now))
           (daily_expenses data))
  end.
Proof.
  rewrite get_financial_summary_eq. cbv zeta.
  cbn [fin_monthly_income daily_allowance todays_expenses todays_savings
       daily_used_percent].
  reflexivity.
Qed.

Lemma todays_savings_summary (now : datetime) (data : ledger) :
  todays_savings (get_financial_summary now data) =
  (daily_allowance (get_financial_summary now data)
   - todays_expenses (get_financial_summary now data))%float.
Proof.
  rewrite get_financial_summary_eq. cbv zeta.
  cbn [fin_monthly_income daily_allowance todays_expenses todays_savings
       daily_used_percent].
  reflexivity.
Qed.

Lemma daily_used_percent_summary (now : datetime) (data : ledger) :
  daily_used_percent (get_financial_summary now data) =
  if PrimFloat.ltb 0 (daily_allowance (get_financial_summary now data))
  then Num.min100
         (todays_expenses (get_financial_summary now data)
          / daily_allowance (get_financial_summary now data) * 100)%float
  else 0%float.
Proof.
  rewrite get_financial_summary_eq. cbv zeta.
  cbn [fin_monthly_income daily_allowance todays_expenses todays_savings
       daily_used_percent].
  reflexivity.
Qed.

Lemma fin_monthly_income_summary (now : datetime) (data : ledger) :
  fin_monthly_income (get_financial_summary now data) = monthly_income data.
Proof.
  rewrite get_financial_summary_eq. cbv zeta.
  cbn [fin_monthly_income daily_allowance todays_expenses todays_savings
       daily_used_percent].
  reflexivity.
Qed.

Lemma daily_allowance_leb (now : datetime) (data : ledger) :
  PrimFloat.leb 0 (daily_allowance (get_financial_summary now data)) = true.
Proof.
  rewrite daily_allowance_summary.
  destruct (0 <? remaining_days_at now); [apply max0_nonneg | reflexivity].
Qed.

(** X1: the daily allowance is never negative and never a NaN
    ([0 <= daily_allowance] holds as a float comparison), whatever the
    income, the fixed expenses and the goal are; and the number of remaining
    days it divides by is at least 1. *)
Theorem daily_allowance_nonneg (now : datetime) (data : ledger) :
  PrimFloat.leb 0 (daily_allowance (get_financial_summary now data)) = true
  /\ 1 <= remaining_days (get_financial_summary now data).
Proof.
  split.
  - apply daily_allowance_leb.
  - rewrite remaining_days_summary. unfold remaining_days_at. lia.
Qed.

(** X2: the share of the allowance used is at most 100 (as a float
    comparison, so it is no NaN either), and it is 0 when the allowance is
    not above 0. *)
Theorem daily_used_percent_capped (now : datetime) (data : ledger) :
  PrimFloat.leb (daily_used_percent (get_financial_summary now data)) 100
  = true
  /\ (PrimFloat.ltb 0 (daily_allowance (get_financial_summary now data))
      = false ->
      daily_used_percent (get_financial_summary now data) = 0%float).
Proof.
  rewrite daily_used_percent_summary.
  destruct (PrimFloat.ltb 0 (daily_allowance (get_financial_summary now data))).
  - split; [apply min100_le | discriminate].
  - split; reflexivity.
Qed.

(** ** What the summary sees of the expenses *)

Lemma leb_zero_not_ltb (x : float) :
  PrimFloat.leb 0 x = true -> PrimFloat.ltb x 0 = false.
Proof.
  rewrite ltb_spec, leb_spec.
  replace (Prim2SF 0) with (S754_zero false) by reflexivity.
  destruct (Prim2SF x) as [s | s | | s m e]; try destruct s; cbn; congruence.
Qed.

Lemma date_eqb_same_month (a b : date) :
  date_eqb a b = true -> same_month a b = true.
Proof.
  unfold date_eqb, same_month. rewrite !andb_true_iff. tauto.
Qed.

Lemma not_big_month_counted (today : date) (df : list expense) :
  filter (fun e => negb (is_big_purchase e))
    (filter (fun e => same_month (date_ e) today) (filter (counted today) df))
  = filter (fun e => negb (is_big_purchase e))
      (filter (fun e => same_month (date_ e) today) df).
Proof.
  induction df as [|e df IH]; [reflexivity|].
  unfold counted in *. cbn [filter].
  destruct (same_month (date_ e) today) eqn:Em;
    destruct (is_big_purchase e) eqn:Eb; cbn [andb negb filter];
    rewrite ?Em, ?Eb; cbn [negb filter]; rewrite ?Eb; cbn [negb];
    now rewrite IH.
Qed.

Lemma not_big_today_counted (today : date) (df : list expense) :
  filter (fun e => negb (is_big_purchase e))
    (filter (fun e => date_eqb (date_ e) today) (filter (counted today) df))
  = filter (fun e => negb (is_big_purchase e))
      (filter (fun e => date_eqb (date_ e) today) df).
Proof.
  induction df as [|e df IH]; [reflexivity|].
  unfold counted in *. cbn [filter].
  destruct (date_eqb (date_ e) today) eqn:Ed.
  - rewrite (date_eqb_same_month _ _ Ed).
    destruct (is_big_purchase e) eqn:Eb; cbn [andb negb filter];
      rewrite ?Ed; cbn [filter]; rewrite ?Eb; cbn [negb]; now rewrite IH.
  - destruct (same_month (date_ e) today && negb (is_big_purchase e));
      cbn [filter]; rewrite ?Ed; exact IH.
Qed.

(** The two sums of the summary, whatever the list is, the empty one
    included. *)
Lemma spent_today_any (now : datetime) (df : list expense) :
  match df with
  | [] => 0%float
  | _ :: _ =>
      not_big_amount_sum (filter (fun e => date_eqb (date_ e) (dt_date now)) df)
  end
  = not_big_amount_sum (filter (fun e => date_eqb (date_ e) (dt_date now)) df).
Proof.
  now destruct df.
Qed.

Lemma spent_month_any (now : datetime) (df : list expense) :
  match df with
  | [] => 0%float
  | _ :: _ =>
      not_big_amount_sum
        (filter (fun e => same_month (date_ e) (dt_date now)) df)
  end
  = not_big_amount_sum
      (filter (fun e => same_month (date_ e) (dt_date now)) df).
Proof.
  now destruct df.
Qed.

(** Two ledgers with the same budget whose counted expenses are the same
    have the same summary. *)
Lemma get_financial_summary_counted (now : datetime) (d d' : ledger) :
  monthly_income d = monthly_income d' ->
  fixed_expenses d = fixed_expenses d' ->
  monthly_savings_goal d = monthly_savings_goal d' ->
  filter (counted (dt_date now)) (daily_expenses d)
  = filter (counted (dt_date now)) (daily_expenses d') ->
  get_financial_summary now d = get_financial_summary now d'.
Proof.
  intros Hi Hf Hg He. rewrite !get_financial_summary_eq.
  rewrite Hi, Hf, Hg, !spent_today_any, !spent_month_any.
  unfold not_big_amount_sum.
  rewrite <- (not_big_today_counted (dt_date now) (daily_expenses d)).
  rewrite <- (not_big_month_counted (dt_date now) (daily_expenses d)).
  rewrite He, not_big_today_counted, not_big_month_counted. reflexivity.
Qed.

(** X3: the summary only sees the expenses of the current month that are not
    big purchases: dropping all the others from the ledger (even all of
    them) leaves every field of the summary as it is. *)
Theorem summary_sees_counted_only (now : datetime) (data : ledger) :
  get_financial_summary now
    (set_daily_expenses
       (filter (counted (dt_date now)) (daily_expenses data)) data)
  = get_financial_summary now data.
Proof.
  apply get_financial_summary_counted; try reflexivity.
  cbn [daily_expenses set_daily_expenses].
  induction (daily_expenses data) as [|e df IH]; [reflexivity|].
  cbn [filter]. destruct (counted (dt_date now) e) eqn:E; cbn [filter].
  - rewrite E. now f_equal.
  - exact IH.
Qed.

(** X4: logging a big purchase stores it but leaves the whole summary
    (allowance, spent today, savings, share used, spent this month) as it
    was before. *)
Theorem big_purchase_keeps_summary (now : datetime) (a : float)
  (c d : string) (w : world) :
  PrimFloat.leb a 0 = false ->
  get_financial_summary now
    (app_data (log_expense_callback now a c d true w))
  = get_financial_summary now (app_data w)
  /\ In (mkExpense (dt_date now) a c d true)
       (daily_expenses (app_data (log_expense_callback now a c d true w))).
Proof.
  intros Hpos. rewrite log_expense_app_data, Hpos. cbv zeta.
  set (data1 := set_daily_expenses _ (app_data w)).
  set (s1 := todays_savings (get_financial_summary now data1)).
  destruct (update_streak_frame now data1 s1) as (_ & _ & _ & _ & Ue).
  destruct (update_streak_budget_frame now data1 s1) as (Ui & Uf & Ug).
  destruct (check_rewards_frame (fst (update_streak now data1 s1)))
    as (_ & _ & _ & _ & _ & Ce).
  destruct (check_rewards_budget_frame (fst (update_streak now data1 s1)))
    as (Ci & Cf & Cg).
  split.
  - apply get_financial_summary_counted.
    + now rewrite Ci, Ui.
    + now rewrite Cf, Uf.
    + now rewrite Cg, Ug.
    + rewrite Ce, Ue. subst data1. cbn [daily_expenses set_daily_expenses].
      assert (Hc : counted (dt_date now) (mkExpense (dt_date now) a c d true)
                   = false)
        by (unfold counted; cbn [is_big_purchase negb]; apply andb_false_r).
      rewrite filter_app. cbn [filter]. rewrite Hc. apply app_nil_r.
  - rewrite Ce, Ue. subst data1. cbn [daily_expenses set_daily_expenses].
    apply in_or_app. right. now left.
Qed.

Lemma big_purchase_keeps_summary_witness :
  get_financial_summary april_first_noon
    (app_data
       (log_expense_callback april_first_noon 900 "Shopping" "laptop" true
          (mkWorld (reference_budget []) None true [])))
  = get_financial_summary april_first_noon (reference_budget [])
  /\ In (mkExpense (dt_date april_first_noon) 900 "Shopping" "laptop" true)
       (daily_expenses
          (app_data
             (log_expense_callback april_first_noon 900 "Shopping" "laptop"
                true (mkWorld (reference_budget []) None true [])))).
Proof.
  apply (big_purchase_keeps_summary april_first_noon 900 "Shopping" "laptop"
           (mkWorld (reference_budget []) None true [])).
  reflexivity.
Defined.

(** ** A day without spending *)

Lemma no_spending_filter (today : date) (df : list expense) :
  no_spending_on today df ->
  filter (fun e => negb (is_big_purchase e))
    (filter (fun e => date_eqb (date_ e) today) df) = [].
Proof.
  unfold no_spending_on. induction df as [|e df IH]; intros H; [reflexivity|].
  cbn [filter]. destruct (date_eqb (date_ e) today) eqn:Ed.
  - cbn [filter]. rewrite (H e (or_introl eq_refl) Ed). cbn [negb].
    apply IH. intros e' Hin. apply H. now right.
  - apply IH. intros e' Hin. apply H. now right.
Qed.

Lemma no_spending_summary (now : datetime) (data : ledger) :
  no_spending_on (dt_date now) (daily_expenses data) ->
  todays_expenses (get_financial_summary now data) = 0%float
  /\ todays_savings (get_financial_summary now data)
     = daily_allowance (get_financial_summary now data).
Proof.
  intros Hquiet.
  assert (Hspent : todays_expenses (get_financial_summary now data) = 0%float).
  { rewrite todays_expenses_summary, spent_today_any.
    unfold not_big_amount_sum.
    now rewrite (no_spending_filter _ _ Hquiet). }
  split; [exact Hspent|].
  now rewrite todays_savings_summary, Hspent, sub_zero.
Qed.

(** X5: on a day with no spending that counts (no expense dated today, big
    purchases apart), nothing is spent, the savings are the whole allowance,
    so they are not negative; the pet is "Excited" if it had its treat and
    "Neutral" otherwise, never "Sad" or "Happy"; and the treat button works:
    after [give_treat_callback] the treat is given. *)
Theorem quiet_day (now : datetime) (w : world) :
  no_spending_on (dt_date now) (daily_expenses (app_data w)) ->
  let fin := get_financial_summary now (app_data w) in
  todays_expenses fin = 0%float
  /\ todays_savings fin = daily_allowance fin
  /\ PrimFloat.leb 0 (todays_savings fin) = true
  /\ mood (get_pet_status (app_data w) fin)
     = (if daily_treat_given (app_data w) then "Excited" else "Neutral")%string
  /\ daily_treat_given (app_data (give_treat_callback now w)) = true.
Proof.
  intros Hquiet. cbv zeta.
  destruct (no_spending_summary now (app_data w) Hquiet) as [Hspent Hsave].
  assert (Hok : PrimFloat.leb 0
                  (todays_savings (get_financial_summary now (app_data w)))
                = true)
    by (rewrite Hsave; apply daily_allowance_leb).
  repeat (split; [assumption|]). split.
  - unfold get_pet_status. rewrite Hspent, Hok, (leb_zero_not_ltb _ Hok).
    change (PrimFloat.ltb 0 0) with false. cbn [andb].
    destruct (PrimFloat.eqb _ 0); now destruct (daily_treat_given (app_data w)).
  - unfold give_treat_callback.
    destruct (daily_treat_given (app_data w)) eqn:Hgiven.
    + exact Hgiven.
    + rewrite Hok. unfold _save_data. now destruct (writable _).
Qed.

(** A day whose only entries are an expense of the day before and a big
    purchase of today. *)
Lemma quiet_day_witness :
  let w :=
    mkWorld
      (reference_budget
         [mkExpense (mkDate 2024 3 31) 20 "Food" "" false;
          mkExpense (mkDate 2024 4 1) 900 "Shopping" "laptop" true])
      None true [] in
  let fin := get_financial_summary april_first_noon (app_data w) in
  todays_expenses fin = 0%float
  /\ todays_savings fin = daily_allowance fin
  /\ PrimFloat.leb 0 (todays_savings fin) = true
  /\ mood (get_pet_status (app_data w) fin)
     = (if daily_treat_given (app_data w)
        then "Excited" else "Neutral")%string
  /\ daily_treat_given (app_data (give_treat_callback april_first_noon w))
     = true.
Proof.
  apply (quiet_day april_first_noon
           (mkWorld
              (reference_budget
                 [mkExpense (mkDate 2024 3 31) 20 "Food" "" false;
                  mkExpense (mkDate 2024 4 1) 900 "Shopping" "laptop" true])
              None true [])).
  intros e [<- | [<- | []]]; cbn; [discriminate | reflexivity].
Defined.

(** ** The days that remain in the month *)

Lemma is_leap_shift (y k : Z) : is_leap (y + 400 * k) = is_leap y.
Proof.
  unfold is_leap.
  replace ((y + 400 * k) mod 4) with (y mod 4)
    by (replace (y + 400 * k) with (y + (100 * k) * 4) by ring;
        now rewrite Z_mod_plus_full).
  replace ((y + 400 * k) mod 100) with (y mod 100)
    by (replace (y + 400 * k) with (y + (4 * k) * 100) by ring;
        now rewrite Z_mod_plus_full).
  replace ((y + 400 * k) mod 400) with (y mod 400)
    by (replace (y + 400 * k) with (y + k * 400) by ring;
        now rewrite Z_mod_plus_full).
  reflexivity.
Qed.

Lemma days_before_year_shift (y k : Z) :
  days_before_year (y + 400 * k) = days_before_year y + 146097 * k.
Proof.
  unfold days_before_year. cbv zeta.
  replace ((y + 400 * k - 1) / 4) with ((y - 1) / 4 + 100 * k)
    by (replace (y + 400 * k - 1) with (y - 1 + (100 * k) * 4) by ring;
        now rewrite Z.div_add).
  replace ((y + 400 * k - 1) / 100) with ((y - 1) / 100 + 4 * k)
    by (replace (y + 400 * k - 1) with (y - 1 + (4 * k) * 100) by ring;
        now rewrite Z.div_add).
  replace ((y + 400 * k - 1) / 400) with ((y - 1) / 400 + k)
    by (replace (y + 400 * k - 1) with (y - 1 + k * 400) by ring;
        now rewrite Z.div_add).
  ring.
Qed.

Lemma toordinal_shift (k : Z) (d : date) :
  toordinal (shift_years (400 * k) d) = toordinal d + 146097 * k.
Proof.
  unfold toordinal, shift_years, days_before_month. cbn [year month day].
  rewrite days_before_year_shift, is_leap_shift. ring.
Qed.

Lemma fromordinal_shift (k n : Z) :
  fromordinal (n + 146097 * k) = shift_years (400 * k) (fromordinal n).
Proof.
  unfold fromordinal. cbv zeta.
  replace (n + 146097 * k - 1) with (n - 1 + k * DI400Y)
    by (unfold DI400Y; ring).
  rewrite Z.div_add by (unfold DI400Y; lia).
  rewrite Z_mod_plus_full.
  set (r := (n - 1) mod DI400Y).
  set (q := (n - 1) / DI400Y).
  destruct ((r mod DI100Y mod DI4Y / 365 =? 4) || (r / DI100Y =? 4)).
  - unfold shift_years. cbn [year month day]. f_equal. ring.
  - match goal with
    | |- (if ?c then _ else _) = _ => destruct c
    end; unfold shift_years; cbn [year month day]; f_equal; ring.
Qed.

Lemma days_in_month_shift (y k m : Z) :
  days_in_month (y + 400 * k) m = days_in_month y m.
Proof.
  unfold days_in_month. now rewrite is_leap_shift.
Qed.

Lemma month_end_offset_shift (y k m : Z) :
  month_end_offset (y + 400 * k) m = month_end_offset y m.
Proof.
  assert (Hshift : forall d,
             mkDate (y + 400 * k) m d = shift_years (400 * k) (mkDate y m d))
    by reflexivity.
  assert (Hday : forall j d, day (shift_years j d) = day d) by reflexivity.
  unfold month_end_offset. rewrite !Hshift, !toordinal_shift.
  rewrite <- (Z.add_assoc _ (146097 * k) 4), (Z.add_comm (146097 * k) 4),
    Z.add_assoc.
  rewrite fromordinal_shift.
  generalize (fromordinal (toordinal (mkDate y m 28) + 4)). intros nm.
  rewrite toordinal_shift, Hday.
  rewrite <- (Z.add_assoc _ (146097 * k) (- day nm)),
    (Z.add_comm (146097 * k) (- day nm)), Z.add_assoc.
  rewrite fromordinal_shift, toordinal_shift.
  generalize (toordinal (fromordinal (toordinal nm + - day nm))).
  generalize (toordinal (mkDate y m 0)). intros a b. ring.
Qed.

(** One cycle of 400 years, month by month. *)
Lemma month_end_cycle :
  forallb
    (fun y =>
       forallb (fun m => month_end_offset y m =? days_in_month y m)
         calendar_months)
    cycle_years
  = true.
Proof.
  vm_compute. reflexivity.
Qed.

Lemma in_Z_range (lo len : nat) (z : Z) :
  Z.of_nat lo <= z < Z.of_nat lo + Z.of_nat len ->
  In z (map Z.of_nat (seq lo len)).
Proof.
  intros Hz. apply in_map_iff. exists (Z.to_nat z). split; [lia|].
  apply in_seq. lia.
Qed.

Lemma month_end_cycle_at (r m : Z) :
  0 <= r < 400 -> 1 <= m <= 12 ->
  month_end_offset (r + 1) m = days_in_month (r + 1) m.
Proof.
  intros Hr Hm.
  assert (Hin : In (r + 1) cycle_years) by (apply (in_Z_range 1 400); lia).
  assert (Hinm : In m calendar_months) by (apply (in_Z_range 1 12); lia).
  pose proof (proj1 (forallb_forall _ _) month_end_cycle (r + 1) Hin) as Hy.
  cbv beta in Hy.
  pose proof (proj1 (forallb_forall _ _) Hy m Hinm) as Hok.
  cbv beta in Hok. apply Z.eqb_eq. exact Hok.
Qed.

Lemma month_end_offset_ok (y m : Z) :
  1 <= m <= 12 -> month_end_offset y m = days_in_month y m.
Proof.
  intros Hm.
  pose proof (Z.div_mod (y - 1) 400 ltac:(lia)) as Hy.
  pose proof (Z.mod_pos_bound (y - 1) 400 ltac:(lia)) as Hr.
  assert (Hsplit : y = ((y - 1) mod 400 + 1) + 400 * ((y - 1) / 400)) by lia.
  rewrite Hsplit, month_end_offset_shift, days_in_month_shift.
  exact (month_end_cycle_at _ m Hr Hm).
Qed.

Lemma remaining_days_at_offset (now : datetime) :
  remaining_days_at now =
  Z.max 1
    (month_end_offset (year (dt_date now)) (month (dt_date now))
     - day (dt_date now) + 1).
Proof.
  destruct now as [[y m d] tod].
  unfold remaining_days_at, month_end_offset, add_days, replace_day,
    datetime_sub.
  cbn [dt_date dt_tod td_days year month day].
  assert (Hord : forall k, toordinal (mkDate y m k)
                           = toordinal (mkDate y m 0) + k)
    by (intros k; unfold toordinal; cbn [year month day]; ring).
  rewrite (Hord d).
  generalize (toordinal
                (fromordinal
                   (toordinal (fromordinal (toordinal (mkDate y m 28) + 4))
                    + - day (fromordinal (toordinal (mkDate y m 28) + 4))))).
  generalize (toordinal (mkDate y m 0)). intros base last.
  rewrite Z.sub_diag, Z.add_0_r, Z.div_mul by (unfold MICROS_PER_DAY; lia).
  f_equal. ring.
Qed.

Lemma days_in_month_bounds (y m : Z) :
  1 <= m <= 12 -> 28 <= days_in_month y m <= 31.
Proof.
  intros Hm. unfold days_in_month.
  assert (Hcases : m = 1 \/ m = 2 \/ m = 3 \/ m = 4 \/ m = 5 \/ m = 6 \/ m = 7
                   \/ m = 8 \/ m = 9 \/ m = 10 \/ m = 11 \/ m = 12) by lia.
  destruct (is_leap y);
    repeat (destruct Hcases as [-> | Hcases]; [cbn; lia|]); subst; cbn; lia.
Qed.

(** X6: for every date [datetime] can hold (December 9999 apart), the
    number of remaining days the summary works with is the number of days
    from today to the last day of the month, today included: the length of
    the month minus the day of the month, plus 1.  It lies between 1 and 31,
    and it is 1 on the last day of a month. *)
Theorem remaining_days_in_month (now : datetime) (data : ledger) :
  summary_date (dt_date now) ->
  remaining_days (get_financial_summary now data)
  = days_in_month (year (dt_date now)) (month (dt_date now))
    - day (dt_date now) + 1
  /\ 1 <= remaining_days (get_financial_summary now data) <= 31.
Proof.
  intros (_ & Hm & Hd & _).
  rewrite remaining_days_summary, remaining_days_at_offset.
  rewrite (month_end_offset_ok _ _ Hm).
  pose proof (days_in_month_bounds (year (dt_date now)) _ Hm). lia.
Qed.

Lemma remaining_days_in_month_witness :
  remaining_days
    (get_financial_summary (mkDatetime (mkDate 2024 2 29) 0) default_data)
  = days_in_month 2024 2 - 29 + 1
  /\ 1 <= remaining_days
            (get_financial_summary (mkDatetime (mkDate 2024 2 29) 0)
               default_data) <= 31.
Proof.
  apply (remaining_days_in_month (mkDatetime (mkDate 2024 2 29) 0)
           default_data).
  unfold summary_date. cbn. lia.
Defined.

(** ** The daily reset and the treat *)

(** What [main] hands to the page: the summary and the pet status of the
    ledger as the daily reset left it, before the streak is updated. *)
Lemma main_result (now : datetime) (w : world) :
  snd (main now w) =
  let data := fst (check_daily_reset now (app_data w)) in
  (get_financial_summary now data,
   get_pet_status data (get_financial_summary now data)).
Proof.
  unfold main.
  destruct (check_daily_reset now (app_data w)) as [d0 changed].
  cbv zeta. cbn [fst].
  destruct (update_streak now d0 _) as [d1 r1].
  destruct (check_rewards d1) as [d2 r2].
  destruct (_save_data d2 _) as [w1 ok]. reflexivity.
Qed.

(** Without a treat the mood is one of the three others. *)
Lemma mood_without_treat (data : ledger) (fin : financials) :
  daily_treat_given data = false ->
  mood (get_pet_status data fin) <> "Excited"%string.
Proof.
  intros Hfree. unfold get_pet_status. rewrite Hfree.
  destruct (PrimFloat.eqb _ 0); [cbn; discriminate|].
  destruct (_ && _); [cbn; discriminate|].
  destruct (PrimFloat.ltb _ 0); cbn; discriminate.
Qed.

(** X7: [check_daily_reset] acts once a day.  After it the last treat date
    is today.  When it returns [True] it has cleared the treat flag and
    changed nothing but the flag and the date; when it returns [False] the
    ledger is untouched; and a second call on the same day returns [False]
    and changes nothing. *)
Theorem check_daily_reset_once_a_day (now : datetime) (data : ledger) :
  let data1 := fst (check_daily_reset now data) in
  last_treat_date data1 = Some (dt_date now)
  /\ (snd (check_daily_reset now data) = true ->
      data1 = set_last_treat_date (Some (dt_date now))
                (set_daily_treat_given false data)
      /\ last_treat_date data <> Some (dt_date now))
  /\ (snd (check_daily_reset now data) = false -> data1 = data)
  /\ check_daily_reset now data1 = (data1, false).
Proof.
  cbv zeta.
  assert (Hstamp : last_treat_date (fst (check_daily_reset now data))
                   = Some (dt_date now)).
  { unfold check_daily_reset.
    destruct (opt_date_eqb (last_treat_date data) (Some (dt_date now))) eqn:E;
      cbn [negb fst]; [|reflexivity].
    destruct (last_treat_date data) as [l|]; cbn in E; [|discriminate].
    apply date_eqb_eq in E. now subst. }
  split; [exact Hstamp|].
  split; [|split; [|now apply check_daily_reset_same_day]].
  - unfold check_daily_reset.
    destruct (opt_date_eqb (last_treat_date data) (Some (dt_date now))) eqn:E;
      cbn [negb fst snd]; [discriminate|].
    intros _. split; [reflexivity|].
    intros Hdate. rewrite Hdate, opt_date_eqb_refl in E. discriminate.
  - unfold check_daily_reset.
    destruct (opt_date_eqb (last_treat_date data) (Some (dt_date now)));
      cbn [negb fst snd]; [reflexivity | discriminate].
Qed.

(** X8: the treat is a daily one.  When the page runs on a day that is not
    the last treat date, the treat flag is cleared in the session, the last
    treat date becomes today, and the status shown is not "Excited", even
    though the treat flag was set the day before. *)
Theorem new_day_clears_treat (now : datetime) (w : world) :
  last_treat_date (app_data w) <> Some (dt_date now) ->
  daily_treat_given (app_data (fst (main now w))) = false
  /\ last_treat_date (app_data (fst (main now w))) = Some (dt_date now)
  /\ mood (snd (snd (main now w))) <> "Excited"%string.
Proof.
  intros Hnew.
  assert (Hreset : check_daily_reset now (app_data w)
                   = (set_last_treat_date (Some (dt_date now))
                        (set_daily_treat_given false (app_data w)), true)).
  { unfold check_daily_reset.
    destruct (opt_date_eqb (last_treat_date (app_data w))
                (Some (dt_date now))) eqn:E; [|reflexivity].
    exfalso. apply Hnew.
    destruct (last_treat_date (app_data w)) as [l|]; cbn in E; [|discriminate].
    apply date_eqb_eq in E. now subst. }
  rewrite main_app_data, main_result, Hreset. cbv zeta. cbn [fst snd].
  set (d0 := set_last_treat_date (Some (dt_date now))
               (set_daily_treat_given false (app_data w))).
  set (s0 := todays_savings (get_financial_summary now d0)).
  destruct (check_rewards_frame (fst (update_streak now d0 s0)))
    as (-> & -> & _).
  destruct (update_streak_frame now d0 s0) as (-> & -> & _).
  repeat split. now apply mood_without_treat.
Qed.

Lemma new_day_clears_treat_witness :
  let yesterday := mkDatetime (mkDate 2024 3 31) 0 in
  let w := give_treat_callback yesterday fresh_world in
  daily_treat_given (app_data w) = true
  /\ daily_treat_given (app_data (fst (main april_first_noon w))) = false
  /\ last_treat_date (app_data (fst (main april_first_noon w)))
     = Some (dt_date april_first_noon)
  /\ mood (snd (snd (main april_first_noon w))) <> "Excited"%string.
Proof.
  cbv zeta. split; [vm_compute; reflexivity|].
  apply (new_day_clears_treat april_first_noon
           (give_treat_callback (mkDatetime (mkDate 2024 3 31) 0)
              fresh_world)).
  vm_compute. discriminate.
Defined.

(** X9: a successful treat shows at once and for the rest of the day: after
    [give_treat_callback] gave the treat, the pet status is "Excited" with
    the message naming the pet, whatever the summary says (over budget
    included), and a rerun of the page on the same day still shows
    "Excited". *)
Theorem treat_excites_for_the_day (now : datetime) (w : world) :
  daily_treat_given (app_data w) = false ->
  PrimFloat.leb 0 (todays_savings (get_financial_summary now (app_data w)))
  = true ->
  let w1 := give_treat_callback now w in
  (forall fin,
      mood (get_pet_status (app_data w1) fin) = "Excited"%string
      /\ message (get_pet_status (app_data w1) fin)
         = ("Yum! Treats make " ++ pet_name (app_data w)
            ++ " happy! Keep saving!")%string)
  /\ (forall now2, dt_date now2 = dt_date now ->
         mood (snd (snd (main now2 w1))) = "Excited"%string).
Proof.
  intros Hfree Hs. cbv zeta.
  assert (Hw1 : app_data (give_treat_callback now w)
                = set_last_treat_date (Some (dt_date now))
                    (set_daily_treat_given true (app_data w))).
  { unfold give_treat_callback. rewrite Hfree, Hs.
    unfold _save_data. now destruct (writable _). }
  split.
  - intros fin. rewrite Hw1. unfold get_pet_status.
    cbn [daily_treat_given set_last_treat_date set_daily_treat_given pet_name].
    destruct (PrimFloat.eqb _ 0); [cbn; auto|].
    destruct (_ && _); [cbn; auto|].
    destruct (PrimFloat.ltb _ 0); cbn; auto.
  - intros now2 Hday. rewrite main_result.
    rewrite check_daily_reset_same_day by (rewrite Hw1, Hday; reflexivity).
    cbv zeta. cbn [fst snd]. rewrite Hw1. unfold get_pet_status.
    cbn [daily_treat_given set_last_treat_date set_daily_treat_given].
    destruct (PrimFloat.eqb _ 0); [reflexivity|].
    destruct (_ && _); [reflexivity|].
    destruct (PrimFloat.ltb _ 0); reflexivity.
Qed.

Lemma treat_excites_for_the_day_witness :
  mood (snd (snd (main april_first_noon
                    (give_treat_callback april_first_noon fresh_world))))
  = "Excited"%string.
Proof.
  destruct (treat_excites_for_the_day april_first_noon fresh_world)
    as [_ Hrerun].
  - reflexivity.
  - vm_compute. reflexivity.
  - exact (Hrerun april_first_noon eq_refl).
Defined.

(** ** More on the streak *)

(** X10: a day within budget right after the last streak day adds exactly 1
    to the streak and makes today the last streak day. *)
Theorem update_streak_next_day (now : datetime) (data : ledger) (s : float)
  (last : date) :
  PrimFloat.leb 0 s = true ->
  last_streak_date data = Some last ->
  date_sub_days (dt_date now) last = 1 ->
  saving_streak (fst (update_streak now data s)) = saving_streak data + 1
  /\ last_streak_date (fst (update_streak now data s)) = Some (dt_date now)
  /\ snd (update_streak now data s) = saving_streak data + 1.
Proof.
  intros Hs Hlast Hday. unfold update_streak. rewrite Hs, Hlast.
  cbn [opt_date_eqb].
  assert (Hneq : date_eqb last (dt_date now) = false).
  { destruct (date_eqb last (dt_date now)) eqn:E; [|reflexivity].
    apply date_eqb_eq in E. subst last. unfold date_sub_days in Hday. lia. }
  rewrite Hneq, Hday. cbn. repeat split.
Qed.

Lemma update_streak_next_day_witness :
  saving_streak
    (fst (update_streak april_first_noon
            (set_last_streak_date (Some (mkDate 2024 3 31))
               (set_saving_streak 6 default_data)) 5%float)) = 6 + 1
  /\ last_streak_date
       (fst (update_streak april_first_noon
               (set_last_streak_date (Some (mkDate 2024 3 31))
                  (set_saving_streak 6 default_data)) 5%float))
     = Some (dt_date april_first_noon)
  /\ snd (update_streak april_first_noon
            (set_last_streak_date (Some (mkDate 2024 3 31))
               (set_saving_streak 6 default_data)) 5%float) = 6 + 1.
Proof.
  apply (update_streak_next_day april_first_noon
           (set_last_streak_date (Some (mkDate 2024 3 31))
              (set_saving_streak 6 default_data)) 5%float (mkDate 2024 3 31));
    reflexivity.
Defined.

(** X11: when the last streak date is later than today (the clock went
    back, or the file was edited) and today is within budget, the streak is
    kept as it is, neither increased nor restarted, and the last streak date
    moves back to today. *)
Theorem update_streak_future_date (now : datetime) (data : ledger)
  (s : float) (last : date) :
  PrimFloat.leb 0 s = true ->
  last_streak_date data = Some last ->
  date_sub_days (dt_date now) last < 0 ->
  saving_streak (fst (update_streak now data s)) = saving_streak data
  /\ last_streak_date (fst (update_streak now data s)) = Some (dt_date now).
Proof.
  intros Hs Hlast Hday. unfold update_streak. rewrite Hs, Hlast.
  cbn [opt_date_eqb].
  assert (Hneq : date_eqb last (dt_date now) = false).
  { destruct (date_eqb last (dt_date now)) eqn:E; [|reflexivity].
    apply date_eqb_eq in E. subst last. unfold date_sub_days in Hday. lia. }
  assert (H1 : (date_sub_days (dt_date now) last =? 1) = false)
    by (apply Z.eqb_neq; lia).
  assert (H2 : (1 <? date_sub_days (dt_date now) last) = false)
    by (apply Z.ltb_ge; lia).
  rewrite Hneq, H1, H2. cbn. split; reflexivity.
Qed.

Lemma update_streak_future_date_witness :
  saving_streak
    (fst (update_streak april_first_noon
            (set_last_streak_date (Some (mkDate 2024 4 9))
               (set_saving_streak 4 default_data)) 5%float)) = 4
  /\ last_streak_date
       (fst (update_streak april_first_noon
               (set_last_streak_date (Some (mkDate 2024 4 9))
                  (set_saving_streak 4 default_data)) 5%float))
     = Some (dt_date april_first_noon).
Proof.
  apply (update_streak_future_date april_first_noon
           (set_last_streak_date (Some (mkDate 2024 4 9))
              (set_saving_streak 4 default_data)) 5%float (mkDate 2024 4 9));
    reflexivity.
Defined.

Lemma update_streak_nonneg (now : datetime) (data : ledger) (s : float) :
  0 <= saving_streak data ->
  0 <= saving_streak (fst (update_streak now data s)).
Proof.
  intros H. unfold update_streak.
  destruct (PrimFloat.leb 0 s); [|cbn; lia].
  destruct (negb (opt_date_eqb (last_streak_date data) (Some (dt_date now))));
    [|cbn; lia].
  destruct (last_streak_date data) as [l|]; [|cbn; lia].
  destruct (date_sub_days (dt_date now) l =? 1); [cbn; lia|].
  destruct (1 <? date_sub_days (dt_date now) l); cbn; lia.
Qed.

Lemma perform_streak_nonneg (op : operation) (w : world) :
  0 <= saving_streak (app_data w) ->
  0 <= saving_streak (app_data (perform op w)).
Proof.
  intros H.
  destruct op as [now s | | now | now a c d b | i g f | now | now];
    cbn [perform app_data set_app_data].
  - now apply update_streak_nonneg.
  - now rewrite (proj1 (proj2 (proj2 (check_rewards_frame _)))).
  - unfold check_daily_reset. now destruct (negb _).
  - rewrite log_expense_app_data.
    destruct (PrimFloat.leb a 0); [exact H|]. cbv zeta.
    rewrite (proj1 (proj2 (proj2 (check_rewards_frame _)))).
    now apply update_streak_nonneg.
  - unfold update_budget_callback.
    destruct (_ || _); [exact H|].
    destruct (PrimFloat.ltb i _); [exact H|].
    unfold _save_data. now destruct (writable _).
  - unfold give_treat_callback.
    destruct (daily_treat_given _); [exact H|].
    destruct (PrimFloat.leb 0 _); [|exact H].
    unfold _save_data. now destruct (writable _).
  - rewrite main_app_data. cbv zeta.
    rewrite (proj1 (proj2 (proj2 (check_rewards_frame _)))).
    apply update_streak_nonneg.
    unfold check_daily_reset. now destruct (negb _).
Qed.

(** X12: the streak never becomes negative: if it is 0 or more before a run
    of operations, it is 0 or more after it. *)
Theorem saving_streak_nonneg (ops : list operation) (w : world) :
  0 <= saving_streak (app_data w) ->
  0 <= saving_streak (app_data (run ops w)).
Proof.
  revert w. induction ops as [|op ops IH]; intros w H; [exact H|].
  cbn [run fold_left]. apply IH. now apply perform_streak_nonneg.
Qed.

Lemma saving_streak_nonneg_witness :
  0 <= saving_streak
         (app_data
            (run (flat_map within_budget_day [1; 2; 3] ++ spa_then_reset)
               fresh_world)).
Proof.
  apply (saving_streak_nonneg
           (flat_map within_budget_day [1; 2; 3] ++ spa_then_reset)
           fresh_world).
  cbn. lia.
Defined.

(** ** More on the rewards *)

(** The ledger [check_rewards] leaves. *)
Lemma check_rewards_fst (data : ledger) :
  fst (check_rewards data)
  = set_rewards_unlocked (rewards_unlocked (fst (check_rewards data))) data.
Proof.
  unfold check_rewards.
  destruct ((7 <=? saving_streak data)
            && negb (reward_in "Weekly Spa" (rewards_unlocked data)));
    match goal with
    | |- context [if ?c then _ else _] => destruct c
    end; reflexivity.
Qed.

(** After [check_rewards] every reward the streak has earned is unlocked. *)
Lemma check_rewards_earned (data : ledger) :
  (7 <= saving_streak data ->
   reward_in "Weekly Spa" (rewards_unlocked (fst (check_rewards data))) = true)
  /\ (30 <= saving_streak data ->
      reward_in "Monthly Vacation"
        (rewards_unlocked (fst (check_rewards data))) = true).
Proof.
  rewrite check_rewards_list. split; intros Hs.
  - apply Z.leb_le in Hs. rewrite Hs. cbn [andb].
    rewrite !reward_in_app.
    destruct (reward_in "Weekly Spa" (rewards_unlocked data));
      [reflexivity|]. reflexivity.
  - apply Z.leb_le in Hs. rewrite Hs. cbn [andb].
    rewrite !reward_in_app.
    destruct (reward_in "Monthly Vacation" (rewards_unlocked data));
      [apply orb_true_l|].
    cbn [negb]. rewrite orb_false_l. apply orb_true_iff. now right.
Qed.

Lemma set_rewards_unlocked_same (d : ledger) :
  set_rewards_unlocked (rewards_unlocked d) d = d.
Proof.
  now destruct d.
Qed.

Lemma check_rewards_settled (data : ledger) :
  let d1 := fst (check_rewards data) in
  (7 <=? saving_streak d1)
  && negb (reward_in "Weekly Spa" (rewards_unlocked d1)) = false
  /\ (30 <=? saving_streak d1)
     && negb (reward_in "Monthly Vacation" (rewards_unlocked d1)) = false.
Proof.
  cbv zeta.
  destruct (check_rewards_frame data) as (_ & _ & Hstreak & _).
  destruct (check_rewards_earned data) as [Hws Hmv].
  rewrite Hstreak. split.
  - destruct (7 <=? saving_streak data) eqn:E; [|reflexivity].
    apply Z.leb_le in E. now rewrite (Hws E).
  - destruct (30 <=? saving_streak data) eqn:E; [|reflexivity].
    apply Z.leb_le in E. now rewrite (Hmv E).
Qed.

Lemma check_rewards_fst_again (data : ledger) :
  fst (check_rewards (fst (check_rewards data))) = fst (check_rewards data).
Proof.
  destruct (check_rewards_settled data) as [H7 H30].
  rewrite (check_rewards_fst (fst (check_rewards data))).
  rewrite check_rewards_list, H7, H30, !app_nil_r.
  apply set_rewards_unlocked_same.
Qed.

(** X13: [check_rewards] reports a reward once: called again right after,
    it changes nothing and returns [None]. *)
Theorem check_rewards_reports_once (data : ledger) :
  check_rewards (fst (check_rewards data)) = (fst (check_rewards data), None).
Proof.
  destruct (check_rewards_settled data) as [H7 H30].
  apply injective_projections; cbn [fst snd].
  - apply check_rewards_fst_again.
  - now rewrite check_rewards_result, H30, H7.
Qed.

(** X14: after [check_rewards] the list holds every reward the streak has
    earned ("Weekly Spa" from 7, "Monthly Vacation" from 30) and nothing new
    but these two names; below 7 the list is as it was and nothing is
    reported. *)
Theorem check_rewards_complete (data : ledger) :
  let rewards := rewards_unlocked (fst (check_rewards data)) in
  (7 <= saving_streak data -> In "Weekly Spa"%string rewards)
  /\ (30 <= saving_streak data -> In "Monthly Vacation"%string rewards)
  /\ (forall name, In name rewards ->
         In name (rewards_unlocked data)
         \/ name = "Weekly Spa"%string \/ name = "Monthly Vacation"%string)
  /\ (saving_streak data < 7 ->
      rewards = rewards_unlocked data /\ snd (check_rewards data) = None).
Proof.
  cbv zeta. destruct (check_rewards_earned data) as [Hws Hmv].
  split; [intros H; apply reward_in_In; auto|].
  split; [intros H; apply reward_in_In; auto|].
  split.
  - intros name. rewrite check_rewards_list. rewrite !in_app_iff.
    intros [H | [H | H]]; [now left | |].
    + destruct (_ && _) in H; [|destruct H].
      destruct H as [<- | []]. auto.
    + destruct (_ && _) in H; [|destruct H].
      destruct H as [<- | []]. auto.
  - intros Hlow.
    assert (H7 : (7 <=? saving_streak data) = false) by (apply Z.leb_gt; lia).
    assert (H30 : (30 <=? saving_streak data) = false)
      by (apply Z.leb_gt; lia).
    rewrite check_rewards_list, check_rewards_result, H7, H30. cbn [andb].
    now rewrite !app_nil_r.
Qed.

(** ** Logging an expense that is accepted *)

Lemma ui_save (data : ledger) (w : world) :
  ui (fst (_save_data data w)) = ui w ++ save_notice w.
Proof.
  unfold _save_data, save_notice.
  destruct (writable w); cbn; [now rewrite app_nil_r | reflexivity].
Qed.

(** The messages of an accepted [log_expense_callback], in order. *)
Lemma log_expense_ui (now : datetime) (a : float) (c d : string) (b : bool)
  (w : world) :
  PrimFloat.leb a 0 = false ->
  let data :=
    set_daily_expenses
      (daily_expenses (app_data w) ++ [mkExpense (dt_date now) a c d b])
      (app_data w) in
  let fin := get_financial_summary now data in
  let data2 := fst (update_streak now data (todays_savings fin)) in
  ui (log_expense_callback now a c d b w) =
  ui w ++ save_notice w
  ++ [st_toast "Expense logged successfully!"]
  ++ match snd (check_rewards data2) with
     | Some r =>
         [st_balloons; st_toast ("🎉 New Reward Unlocked: " ++ r ++ "! 🎉")]
     | None => []
     end.
Proof.
  intros Hpos. cbv zeta. unfold log_expense_callback. rewrite Hpos.
  destruct (update_streak now _ _) as [d1 r1]. cbn [fst].
  destruct (check_rewards d1) as [d2 r2]. cbn [fst snd].
  match goal with
  | |- context [_save_data d2 ?w0] =>
      pose proof (ui_save d2 w0) as Hs;
      destruct (_save_data d2 w0) as [w1 ok]
  end.
  cbn [fst] in Hs.
  change (save_notice (set_app_data d2 w)) with (save_notice w) in Hs.
  change (ui (set_app_data d2 w)) with (ui w) in Hs.
  destruct r2; cbn [ui emit]; rewrite Hs, <- ?app_assoc; reflexivity.
Qed.

(** X15: the seventh day in a row.  With a streak of 6 whose last day was
    yesterday and "Weekly Spa" not unlocked yet, logging an expense that
    leaves today's savings not negative brings the streak to 7, adds
    "Weekly Spa" at the end of the unlocked rewards, and shows, after the
    confirmation of the expense, the balloons and the message of the new
    reward. *)
Theorem seventh_day_unlocks_spa (now : datetime) (a : float) (c d : string)
  (b : bool) (w : world) (last : date) :
  PrimFloat.leb a 0 = false ->
  saving_streak (app_data w) = 6 ->
  last_streak_date (app_data w) = Some last ->
  date_sub_days (dt_date now) last = 1 ->
  reward_in "Weekly Spa" (rewards_unlocked (app_data w)) = false ->
  PrimFloat.leb 0
    (todays_savings
       (get_financial_summary now
          (set_daily_expenses
             (daily_expenses (app_data w) ++ [mkExpense (dt_date now) a c d b])
             (app_data w)))) = true ->
  let w1 := log_expense_callback now a c d b w in
  saving_streak (app_data w1) = 7
  /\ rewards_unlocked (app_data w1)
     = rewards_unlocked (app_data w) ++ ["Weekly Spa"%string]
  /\ ui w1 = ui w ++ save_notice w
             ++ [st_toast "Expense logged successfully!"; st_balloons;
                 st_toast "🎉 New Reward Unlocked: Weekly Spa! 🎉"].
Proof.
  intros Hpos Hstreak Hlast Hday Hws Hs. cbv zeta.
  rewrite log_expense_app_data, (log_expense_ui now a c d b w Hpos), Hpos.
  cbv zeta.
  set (data1 := set_daily_expenses _ (app_data w)) in *.
  set (s1 := todays_savings (get_financial_summary now data1)) in *.
  assert (Hneq : date_eqb last (dt_date now) = false).
  { destruct (date_eqb last (dt_date now)) eqn:E; [|reflexivity].
    apply date_eqb_eq in E. subst last. unfold date_sub_days in Hday. lia. }
  assert (Hd2 : fst (update_streak now data1 s1)
                = set_last_streak_date (Some (dt_date now))
                    (set_saving_streak 7 data1)).
  { unfold update_streak. rewrite Hs.
    change (last_streak_date data1) with (last_streak_date (app_data w)).
    change (saving_streak data1) with (saving_streak (app_data w)).
    rewrite Hlast, Hstreak. cbn [opt_date_eqb]. rewrite Hneq, Hday.
    reflexivity. }
  rewrite Hd2.
  destruct (check_rewards_frame
              (set_last_streak_date (Some (dt_date now))
                 (set_saving_streak 7 data1))) as (_ & _ & -> & _).
  rewrite check_rewards_list, check_rewards_result.
  cbn [saving_streak rewards_unlocked set_last_streak_date set_saving_streak
       set_daily_expenses data1].
  rewrite Hws. cbn. repeat split.
Qed.

Lemma seventh_day_unlocks_spa_witness :
  let w :=
    mkWorld
      (set_last_streak_date (Some (mkDate 2024 3 31))
         (set_saving_streak 6 (reference_budget []))) None true [] in
  let w1 := log_expense_callback april_first_noon 30 "Food" "lunch" false w in
  saving_streak (app_data w1) = 7
  /\ rewards_unlocked (app_data w1)
     = rewards_unlocked (app_data w) ++ ["Weekly Spa"%string]
  /\ ui w1 = ui w ++ save_notice w
             ++ [st_toast "Expense logged successfully!"; st_balloons;
                 st_toast "🎉 New Reward Unlocked: Weekly Spa! 🎉"].
Proof.
  apply (seventh_day_unlocks_spa april_first_noon 30 "Food" "lunch" false
           (mkWorld
              (set_last_streak_date (Some (mkDate 2024 3 31))
                 (set_saving_streak 6 (reference_budget []))) None true [])
           (mkDate 2024 3 31));
    vm_compute; reflexivity.
Defined.

(** X16: an expense that puts the day over budget.  When today's savings are
    negative once the expense is in, the streak is reset to 0 with today as
    last streak date, no reward is unlocked and only the confirmation of the
    expense is shown; and, with a budget set up and no treat given, the pet
    is "Sad". *)
Theorem over_budget_expense_resets (now : datetime) (a : float)
  (c d : string) (b : bool) (w : world) :
  PrimFloat.leb a 0 = false ->
  PrimFloat.ltb
    (todays_savings
       (get_financial_summary now
          (set_daily_expenses
             (daily_expenses (app_data w) ++ [mkExpense (dt_date now) a c d b])
             (app_data w)))) 0 = true ->
  let w1 := log_expense_callback now a c d b w in
  saving_streak (app_data w1) = 0
  /\ last_streak_date (app_data w1) = Some (dt_date now)
  /\ rewards_unlocked (app_data w1) = rewards_unlocked (app_data w)
  /\ ui w1 = ui w ++ save_notice w
             ++ [st_toast "Expense logged successfully!"]
  /\ (daily_treat_given (app_data w) = false ->
      PrimFloat.eqb (monthly_income (app_data w)) 0 = false ->
      mood (get_pet_status (app_data w1)
              (get_financial_summary now (app_data w1))) = "Sad"%string).
Proof.
  intros Hpos Hneg. cbv zeta.
  rewrite log_expense_app_data, (log_expense_ui now a c d b w Hpos), Hpos.
  cbv zeta.
  set (data1 := set_daily_expenses _ (app_data w)) in *.
  set (s1 := todays_savings (get_financial_summary now data1)) in *.
  assert (Hd2 : fst (update_streak now data1 s1)
                = set_last_streak_date (Some (dt_date now))
                    (set_saving_streak 0 data1)).
  { unfold update_streak. now rewrite (ltb_zero_not_leb _ Hneg). }
  rewrite Hd2.
  set (d2 := set_last_streak_date (Some (dt_date now))
               (set_saving_streak 0 data1)) in *.
  destruct (check_rewards_frame d2) as (Ct & _ & Cs & Cl & _ & Ce).
  destruct (check_rewards_budget_frame d2) as (Ci & Cf & Cg).
  assert (Hnone : snd (check_rewards d2) = None)
    by (rewrite check_rewards_result; reflexivity).
  assert (Hlist : rewards_unlocked (fst (check_rewards d2))
                  = rewards_unlocked (app_data w))
    by (rewrite check_rewards_list; cbn; now rewrite app_nil_r).
  rewrite Cs, Cl, Hnone, Hlist.
  split; [reflexivity|]. split; [reflexivity|]. split; [reflexivity|].
  split; [now rewrite app_nil_r|].
  intros Hfree Hinc.
  assert (Hfin : get_financial_summary now (fst (check_rewards d2))
                 = get_financial_summary now data1)
    by (apply get_financial_summary_ext; assumption).
  unfold get_pet_status. rewrite Hfin, Ct.
  change (daily_treat_given d2) with (daily_treat_given (app_data w)).
  rewrite Hfree, fin_monthly_income_summary.
  change (monthly_income data1) with (monthly_income (app_data w)).
  fold s1. rewrite Hinc, (ltb_zero_not_leb _ Hneg), Hneg. reflexivity.
Qed.

Lemma over_budget_expense_resets_witness :
  let w :=
    mkWorld
      (set_last_streak_date (Some (mkDate 2024 3 31))
         (set_saving_streak 9 (reference_budget []))) None true [] in
  let w1 := log_expense_callback april_first_noon 80 "Food" "dinner" false w in
  saving_streak (app_data w1) = 0
  /\ last_streak_date (app_data w1) = Some (dt_date april_first_noon)
  /\ rewards_unlocked (app_data w1) = rewards_unlocked (app_data w)
  /\ ui w1 = ui w ++ save_notice w
             ++ [st_toast "Expense logged successfully!"]
  /\ mood (get_pet_status (app_data w1)
             (get_financial_summary april_first_noon (app_data w1)))
     = "Sad"%string.
Proof.
  cbv zeta.
  destruct (over_budget_expense_resets april_first_noon 80 "Food" "dinner"
              false
              (mkWorld
                 (set_last_streak_date (Some (mkDate 2024 3 31))
                    (set_saving_streak 9 (reference_budget []))) None true []))
    as (H1 & H2 & H3 & H4 & H5); [reflexivity | vm_compute; reflexivity |].
  repeat (split; [assumption|]).
  apply H5; reflexivity.
Defined.

(** ** Reruns of the page *)

Lemma check_daily_reset_stamp (now : datetime) (data : ledger) :
  last_treat_date (fst (check_daily_reset now data)) = Some (dt_date now).
Proof.
  unfold check_daily_reset.
  destruct (opt_date_eqb (last_treat_date data) (Some (dt_date now))) eqn:E;
    cbn [negb fst]; [|reflexivity].
  destruct (last_treat_date data) as [l|]; cbn in E; [|discriminate].
  apply date_eqb_eq in E. now subst.
Qed.

Lemma set_streak_fields_same (d : ledger) :
  set_last_streak_date (last_streak_date d)
    (set_saving_streak (saving_streak d) d) = d.
Proof.
  now destruct d.
Qed.

(** X17: running the page twice at the same clock reading leaves the ledger
    as the first run left it: no second increment of the streak, no second
    reset, no reward added twice. *)
Theorem main_rerun_keeps_ledger (now : datetime) (w : world) :
  app_data (fst (main now (fst (main now w)))) = app_data (fst (main now w)).
Proof.
  rewrite (main_app_data now (fst (main now w))).
  rewrite (main_app_data now w). cbv zeta.
  set (d0 := fst (check_daily_reset now (app_data w))).
  set (s := todays_savings (get_financial_summary now d0)).
  set (d1 := fst (update_streak now d0 s)).
  set (D := fst (check_rewards d1)).
  destruct (check_rewards_frame d1) as (_ & Ctd & Cs & Cl & _ & Ce).
  destruct (check_rewards_budget_frame d1) as (Ci & Cf & Cg).
  destruct (update_streak_frame now d0 s) as (_ & Utd & _ & _ & Ue).
  destruct (update_streak_budget_frame now d0 s) as (Ui & Uf & Ug).
  fold d1 in Utd, Ue, Ui, Uf, Ug. fold D in Ctd, Cs, Cl, Ce, Ci, Cf, Cg.
  assert (Hreset : check_daily_reset now D = (D, false)).
  { apply check_daily_reset_same_day.
    rewrite Ctd, Utd. apply check_daily_reset_stamp. }
  rewrite Hreset. cbn [fst].
  assert (Hfin : get_financial_summary now D = get_financial_summary now d0).
  { apply get_financial_summary_ext.
    - now rewrite Ci, Ui.
    - now rewrite Cf, Uf.
    - now rewrite Cg, Ug.
    - now rewrite Ce, Ue. }
  rewrite Hfin. fold s.
  assert (Hlast : last_streak_date D = Some (dt_date now))
    by (rewrite Cl; apply update_streak_stamps_today).
  assert (Hupd : fst (update_streak now D s) = D).
  { unfold update_streak. rewrite Hlast, opt_date_eqb_refl.
    destruct (PrimFloat.leb 0 s) eqn:Hs; [reflexivity|]. cbn [fst].
    assert (H0 : saving_streak D = 0).
    { rewrite Cs. unfold d1, update_streak. now rewrite Hs. }
    rewrite <- H0 at 1. rewrite <- Hlast. apply set_streak_fields_same. }
  rewrite Hupd. apply check_rewards_fst_again.
Qed.

(** ** Saving *)

Lemma save_in_sync (data : ledger) (w : world) :
  writable w = true ->
  in_sync (fst (_save_data data (set_app_data data w))).
Proof.
  intros Hw. unfold _save_data, in_sync.
  change (writable (set_app_data data w)) with (writable w).
  now rewrite Hw.
Qed.

Lemma in_sync_emit (e : ui_event) (w : world) :
  in_sync w -> in_sync (emit e w).
Proof.
  auto.
Qed.

(** X18: on a disk that can be written, the file keeps up with the session:
    if the file holds the session's ledger before, it holds it after a run of
    the page and after each form (expense, budget, treat, goal, pet name),
    whether the form accepts or refuses its input. *)
Theorem file_follows_session (now : datetime) (w : world) :
  writable w = true -> in_sync w ->
  in_sync (fst (main now w))
  /\ (forall a c d b, in_sync (log_expense_callback now a c d b w))
  /\ (forall income goal fixed,
         in_sync (update_budget_callback income goal fixed w))
  /\ in_sync (give_treat_callback now w)
  /\ (forall name target saved, in_sync (save_goal_button name target saved w))
  /\ (forall name, in_sync (pet_name_input name w)).
Proof.
  intros Hw Hsync.
  split; [|split; [|split; [|split; [|split]]]].
  - unfold main.
    destruct (check_daily_reset now (app_data w)) as [d0 changed].
    cbv zeta.
    destruct (update_streak now d0 _) as [d1 r1].
    destruct (check_rewards d1) as [d2 r2].
    match goal with
    | |- context [_save_data d2 (set_app_data d2 ?w0)] =>
        assert (Hw0 : writable w0 = true);
        [| pose proof (save_in_sync d2 w0 Hw0) as Hs;
           destruct (_save_data d2 (set_app_data d2 w0)) as [w1 ok];
           exact Hs]
    end.
    destruct changed; [|exact Hw].
    unfold _save_data. cbn [writable set_app_data]. now rewrite Hw.
  - intros a c d b. unfold log_expense_callback.
    destruct (PrimFloat.leb a 0); [now apply in_sync_emit|].
    destruct (update_streak now _ _) as [d1 r1].
    destruct (check_rewards d1) as [d2 r2].
    pose proof (save_in_sync d2 w Hw) as Hs.
    destruct (_save_data d2 (set_app_data d2 w)) as [w1 ok].
    cbn [fst] in Hs. destruct r2; repeat apply in_sync_emit; exact Hs.
  - intros income goal fixed. unfold update_budget_callback.
    destruct (_ || _); [now apply in_sync_emit|].
    destruct (PrimFloat.ltb income _); [now apply in_sync_emit|].
    match goal with
    | |- context [_save_data ?d (set_app_data ?d w)] =>
        pose proof (save_in_sync d w Hw) as Hs;
        destruct (_save_data d (set_app_data d w)) as [w1 ok]
    end.
    apply in_sync_emit. exact Hs.
  - unfold give_treat_callback.
    destruct (daily_treat_given (app_data w)); [now apply in_sync_emit|].
    destruct (PrimFloat.leb 0 _); [|now apply in_sync_emit].
    match goal with
    | |- context [_save_data ?d (set_app_data ?d w)] =>
        pose proof (save_in_sync d w Hw) as Hs;
        destruct (_save_data d (set_app_data d w)) as [w1 ok]
    end.
    apply in_sync_emit. exact Hs.
  - intros name target saved. unfold save_goal_button.
    destruct (_ && _); [|now apply in_sync_emit].
    match goal with
    | |- context [_save_data ?d (set_app_data ?d w)] =>
        pose proof (save_in_sync d w Hw) as Hs;
        destruct (_save_data d (set_app_data d w)) as [w1 ok]
    end.
    apply in_sync_emit. exact Hs.
  - intros name. unfold pet_name_input.
    destruct (_ && _); [|exact Hsync].
    now apply save_in_sync.
Qed.

Lemma file_follows_session_witness :
  in_sync
    (log_expense_callback april_first_noon 30 "Food" "lunch" false
       (fst (main april_first_noon fresh_world))).
Proof.
  destruct (file_follows_session april_first_noon
              (fst (main april_first_noon fresh_world)))
    as (_ & Hlog & _); [vm_compute; reflexivity | vm_compute; reflexivity |].
  apply Hlog.
Defined.

Lemma data_file_save_unwritable (data : ledger) (w : world) :
  writable w = false -> data_file (fst (_save_data data w)) = data_file w.
Proof.
  intros Hw. unfold _save_data. now rewrite Hw.
Qed.

(** X19: when the file cannot be written, an accepted expense is still in
    the session's ledger and the file is left as it was; the user is shown
    the error of the failed save and then, all the same, the confirmation
    that the expense was logged. *)
Theorem log_expense_unwritable (now : datetime) (a : float) (c d : string)
  (b : bool) (w : world) :
  writable w = false ->
  PrimFloat.leb a 0 = false ->
  let w1 := log_expense_callback now a c d b w in
  data_file w1 = data_file w
  /\ daily_expenses (app_data w1)
     = daily_expenses (app_data w) ++ [mkExpense (dt_date now) a c d b]
  /\ exists rest,
       ui w1 = ui w
               ++ [st_error "Could not save data. Check file permissions.";
                   st_toast "Expense logged successfully!"] ++ rest.
Proof.
  intros Hw Hpos. cbv zeta. split; [|split].
  - unfold log_expense_callback. rewrite Hpos.
    destruct (update_streak now _ _) as [d1 r1].
    destruct (check_rewards d1) as [d2 r2].
    pose proof (data_file_save_unwritable d2 (set_app_data d2 w) Hw) as Hs.
    destruct (_save_data d2 (set_app_data d2 w)) as [w1 ok].
    cbn [fst] in Hs. now destruct r2.
  - rewrite log_expense_app_data, Hpos. cbv zeta.
    rewrite (proj2 (proj2 (proj2 (proj2 (proj2 (check_rewards_frame _)))))).
    now rewrite (proj2 (proj2 (proj2 (proj2 (update_streak_frame _ _ _))))).
  - rewrite (log_expense_ui now a c d b w Hpos). cbv zeta.
    unfold save_notice. rewrite Hw. eexists. cbn [app]. reflexivity.
Qed.

Lemma log_expense_unwritable_witness :
  let w := mkWorld default_data None false [] in
  let w1 := log_expense_callback april_first_noon 12 "Food" "" false w in
  data_file w1 = data_file w
  /\ daily_expenses (app_data w1)
     = daily_expenses (app_data w)
       ++ [mkExpense (dt_date april_first_noon) 12 "Food" "" false]
  /\ exists rest,
       ui w1 = ui w
               ++ [st_error "Could not save data. Check file permissions.";
                   st_toast "Expense logged successfully!"] ++ rest.
Proof.
  apply (log_expense_unwritable april_first_noon 12 "Food" "" false
           (mkWorld default_data None false [])); reflexivity.
Defined.

(** ** The budget form *)

(** X20: the budget form either refuses the input (a negative income or
    goal, or fixed expenses above the income) with one error message and no
    other change, or stores the income, the goal and the fixed expenses that
    are above 0, in the order of the form.  What it stores passed its tests:
    income and goal are not negative and the fixed expenses do not exceed
    the income; and it leaves the expenses, the streak, the treat and the
    rewards alone. *)
Theorem submit_budget_form_outcomes (income goal : float)
  (inputs : list (string * float)) (w : world) :
  let w1 := submit_budget_form income goal inputs w in
  let kept := filter (fun kv => PrimFloat.ltb 0 (snd kv)) inputs in
  w1 = emit (st_error "Income and savings goal cannot be negative.") w
  \/ w1 = emit (st_error "Total fixed expenses exceed your monthly income!") w
  \/ (app_data w1
      = set_fixed_expenses kept
          (set_monthly_savings_goal goal
             (set_monthly_income income (app_data w)))
      /\ Forall (fun kv => PrimFloat.ltb 0 (snd kv) = true)
           (fixed_expenses (app_data w1))
      /\ PrimFloat.ltb income 0 = false
      /\ PrimFloat.ltb goal 0 = false
      /\ PrimFloat.ltb income (Num.sum (map snd kept)) = false
      /\ ui w1 = ui w ++ save_notice w
                 ++ [st_toast "Budget updated successfully!"]).
Proof.
  cbv zeta. unfold submit_budget_form, update_budget_callback.
  set (kept := filter (fun kv => PrimFloat.ltb 0 (snd kv)) inputs).
  destruct (PrimFloat.ltb income 0) eqn:Hi; [now left|].
  destruct (PrimFloat.ltb goal 0) eqn:Hg; [now left|]. cbn [orb].
  destruct (PrimFloat.ltb income (Num.sum (map snd kept))) eqn:Hf;
    [right; now left|].
  right. right.
  match goal with
  | |- context [_save_data ?d (set_app_data ?d w)] =>
      pose proof (app_data_save d (set_app_data d w)) as Ha;
      pose proof (ui_save d (set_app_data d w)) as Hu;
      destruct (_save_data d (set_app_data d w)) as [w1 ok]
  end.
  cbn [fst] in Ha, Hu. cbn [app_data emit ui]. rewrite Ha, Hu.
  cbn [app_data set_app_data fixed_expenses set_fixed_expenses ui].
  split; [reflexivity|]. split.
  - apply Forall_forall. intros kv Hin. subst kept.
    now apply filter_In in Hin.
  - repeat (split; [reflexivity|]).
    change (save_notice (set_app_data _ w)) with (save_notice w).
    now rewrite <- app_assoc.
Qed.

(** ** The expenses along a run *)

Lemma expenses_step_refl (l : list expense) : expenses_step l l.
Proof.
  exists []. split; [now rewrite app_nil_r | constructor].
Qed.

Lemma expenses_step_trans (l1 l2 l3 : list expense) :
  expenses_step l1 l2 -> expenses_step l2 l3 -> expenses_step l1 l3.
Proof.
  intros (a1 & -> & H1) (a2 & -> & H2). exists (a1 ++ a2). split.
  - now rewrite app_assoc.
  - apply Forall_app. now split.
Qed.

Lemma expenses_step_eq (l l' : list expense) : l' = l -> expenses_step l l'.
Proof.
  intros ->. apply expenses_step_refl.
Qed.

Lemma perform_expenses_step (op : operation) (w : world) :
  expenses_step (daily_expenses (app_data w))
    (daily_expenses (app_data (perform op w))).
Proof.
  destruct op as [now s | | now | now a c d b | i g f | now | now];
    cbn [perform app_data set_app_data].
  - apply expenses_step_eq, update_streak_frame.
  - apply expenses_step_eq, check_rewards_frame.
  - apply expenses_step_eq. unfold check_daily_reset. now destruct (negb _).
  - rewrite log_expense_app_data.
    destruct (PrimFloat.leb a 0) eqn:Hpos; [apply expenses_step_refl|].
    cbv zeta.
    rewrite (proj2 (proj2 (proj2 (proj2 (proj2 (check_rewards_frame _)))))).
    rewrite (proj2 (proj2 (proj2 (proj2 (update_streak_frame _ _ _))))).
    cbn [daily_expenses set_daily_expenses].
    eexists. split; [reflexivity|]. constructor; [exact Hpos | constructor].
  - apply expenses_step_eq. unfold update_budget_callback.
    destruct (_ || _); [reflexivity|].
    destruct (PrimFloat.ltb i _); [reflexivity|].
    unfold _save_data. now destruct (writable _).
  - apply expenses_step_eq. unfold give_treat_callback.
    destruct (daily_treat_given _); [reflexivity|].
    destruct (PrimFloat.leb 0 _); [|reflexivity].
    unfold _save_data. now destruct (writable _).
  - rewrite main_app_data. cbv zeta. apply expenses_step_eq.
    rewrite (proj2 (proj2 (proj2 (proj2 (proj2 (check_rewards_frame _)))))).
    rewrite (proj2 (proj2 (proj2 (proj2 (update_streak_frame _ _ _))))).
    unfold check_daily_reset. now destruct (negb _).
Qed.

(** X21: the expenses are append-only.  Along every run of operations the
    list of expenses keeps what it had, in order, and gains expenses at its
    end only; each expense gained has an amount that is not 0 or less. *)
Theorem daily_expenses_append_only (ops : list operation) (w : world) :
  exists added,
    daily_expenses (app_data (run ops w))
    = daily_expenses (app_data w) ++ added
    /\ Forall (fun e => PrimFloat.leb (amount e) 0 = false) added.
Proof.
  change (expenses_step (daily_expenses (app_data w))
            (daily_expenses (app_data (run ops w)))).
  revert w. induction ops as [|op ops IH]; intros w.
  - apply expenses_step_refl.
  - cbn [run fold_left]. eapply expenses_step_trans.
    + apply (perform_expenses_step op w).
    + apply IH.
Qed.

(** ** The start of a session *)

(** X23: the first run.  With no file, or a file that cannot be loaded, the
    session starts from the default ledger (income 0, no expense, pet
    "Sweety", streak 0, nothing unlocked); the defaults are written to the
    file if it can be written, and otherwise the file is left as it is and
    the save error is shown.  Once the session holds a ledger,
    [_initialize_defaults] does nothing: it is idempotent. *)
Theorem first_run_defaults (s : startup) :
  (session s = None -> disk s = NoFile \/ disk s = Unreadable ->
   session (_initialize_defaults s) = Some default_data
   /\ (disk_writable s = true ->
       disk (_initialize_defaults s) = Stored (document_of default_data)
       /\ shown (_initialize_defaults s) = shown s)
   /\ (disk_writable s = false ->
       disk (_initialize_defaults s) = disk s
       /\ shown (_initialize_defaults s)
          = shown s
            ++ [st_error "Could not save data. Check file permissions."]))
  /\ (session s <> None -> _initialize_defaults s = s)
  /\ _initialize_defaults (_initialize_defaults s) = _initialize_defaults s.
Proof.
  split; [|split].
  - intros Hsession Hdisk. unfold _initialize_defaults. rewrite Hsession.
    assert (Hload : _load_data (disk s) = empty_document)
      by (destruct Hdisk as [-> | ->]; reflexivity).
    rewrite Hload. cbn [empty_document setdefault doc_monthly_income
       doc_monthly_savings_goal doc_fixed_expenses doc_daily_expenses
       doc_extra_goals doc_pet_name doc_saving_streak doc_last_streak_date
       doc_daily_treat_given doc_last_treat_date doc_rewards_unlocked].
    fold default_data. unfold _save_data_disk. cbn [disk_writable].
    destruct (disk_writable s); cbn [fst session disk shown];
      repeat split; intros; congruence.
  - intros Hsession. unfold _initialize_defaults.
    destruct (session s); [reflexivity | congruence].
  - unfold _initialize_defaults at 1.
    assert (Hset : session (_initialize_defaults s) <> None).
    { unfold _initialize_defaults.
      destruct (session s) eqn:E; [congruence|].
      unfold _save_data_disk. cbn [disk_writable].
      destruct (disk_writable s); cbn [fst session]; discriminate. }
    destruct (session (_initialize_defaults s)); [reflexivity | congruence].
Qed.

(** ** Extra goals *)

Lemma dict_get_set_same {A : Type} (key : string) (v : A)
  (d : list (string * A)) :
  dict_get key (dict_set key v d) = Some v.
Proof.
  induction d as [|[k x] d IH]; cbn [dict_set dict_get].
  - now rewrite String.eqb_refl.
  - destruct (String.eqb k key) eqn:E; cbn [dict_get]; now rewrite E.
Qed.

Lemma dict_get_set_other {A : Type} (key other : string) (v : A)
  (d : list (string * A)) :
  other <> key -> dict_get other (dict_set key v d) = dict_get other d.
Proof.
  intros Hneq. induction d as [|[k x] d IH]; cbn [dict_set dict_get].
  - apply String.eqb_neq in Hneq. rewrite String.eqb_sym. now rewrite Hneq.
  - destruct (String.eqb k key) eqn:E; cbn [dict_get].
    + apply String.eqb_eq in E. subst k.
      apply String.eqb_neq in Hneq. rewrite String.eqb_sym. now rewrite Hneq.
    + now rewrite IH.
Qed.

Lemma dict_set_keys {A : Type} (key : string) (v : A)
  (d : list (string * A)) :
  map fst (dict_set key v d)
  = if existsb (String.eqb key) (map fst d) then map fst d
    else map fst d ++ [key].
Proof.
  induction d as [|[k x] d IH]; cbn [dict_set map fst existsb app];
    [reflexivity|].
  rewrite (String.eqb_sym key k).
  destruct (String.eqb k key) eqn:E; cbn [map fst orb]; [reflexivity|].
  rewrite IH. now destruct (existsb _ _).
Qed.

(** X24: the "Save/Update Goal" button.  With an empty name, or a target
    that is not above 0, it shows an error and changes nothing.  Otherwise
    the goal is stored under its name: looking the name up gives the new
    target and amount, every other goal is as it was, a goal that existed
    keeps its place and a new one comes last. *)
Theorem save_goal_button_outcomes (name : string) (target saved : float)
  (w : world) :
  let w1 := save_goal_button name target saved w in
  (name = ""%string \/ PrimFloat.ltb 0 target = false ->
   w1 = emit (st_error "Goal Name and Target Amount are required.") w)
  /\ (name <> ""%string -> PrimFloat.ltb 0 target = true ->
      dict_get name (extra_goals (app_data w1)) = Some (mkGoal target saved)
      /\ (forall other, other <> name ->
             dict_get other (extra_goals (app_data w1))
             = dict_get other (extra_goals (app_data w)))
      /\ map fst (extra_goals (app_data w1))
         = (if existsb (String.eqb name)
                 (map fst (extra_goals (app_data w)))
            then map fst (extra_goals (app_data w))
            else map fst (extra_goals (app_data w)) ++ [name])
      /\ app_data w1
         = set_extra_goals (extra_goals (app_data w1)) (app_data w)).
Proof.
  cbv zeta. split.
  - intros Hbad. unfold save_goal_button.
    destruct Hbad as [-> | Ht]; [reflexivity|].
    rewrite Ht. now rewrite andb_false_r.
  - intros Hname Htarget.
    assert (Hw1 : app_data (save_goal_button name target saved w)
                  = set_extra_goals
                      (dict_set name (mkGoal target saved)
                         (extra_goals (app_data w))) (app_data w)).
    { unfold save_goal_button. apply String.eqb_neq in Hname.
      rewrite Hname, Htarget. cbn [negb andb].
      unfold _save_data. now destruct (writable _). }
    rewrite Hw1. cbn [extra_goals set_extra_goals].
    split; [apply dict_get_set_same|].
    split; [intros other Hother; now apply dict_get_set_other|].
    split; [apply dict_set_keys | reflexivity].
Qed.

(** ** After a run of the page *)

(** X25: after every run of the page, the last treat date and the last
    streak date are today, and every reward the streak has earned is
    unlocked: "Weekly Spa" when the streak is 7 or more, "Monthly Vacation"
    when it is 30 or more. *)
Theorem main_postconditions (now : datetime) (w : world) :
  let data := app_data (fst (main now w)) in
  last_treat_date data = Some (dt_date now)
  /\ last_streak_date data = Some (dt_date now)
  /\ (7 <= saving_streak data ->
      In "Weekly Spa"%string (rewards_unlocked data))
  /\ (30 <= saving_streak data ->
      In "Monthly Vacation"%string (rewards_unlocked data)).
Proof.
  cbv zeta. rewrite main_app_data. cbv zeta.
  set (d0 := fst (check_daily_reset now (app_data w))).
  set (s := todays_savings (get_financial_summary now d0)).
  set (d1 := fst (update_streak now d0 s)).
  destruct (check_rewards_frame d1) as (_ & Ctd & Cs & Cl & _).
  destruct (update_streak_frame now d0 s) as (_ & Utd & _).
  destruct (check_rewards_earned d1) as [Hws Hmv].
  fold d1 in Utd.
  split; [rewrite Ctd, Utd; apply check_daily_reset_stamp|].
  split; [rewrite Cl; apply update_streak_stamps_today|].
  rewrite Cs. split; intros H; apply reward_in_In; auto.
Qed.

(** ** Sample inputs of the properties above *)

Lemma daily_used_percent_capped_witness :
  daily_used_percent (get_financial_summary april_first_noon default_data)
  = 0%float.
Proof.
  apply (daily_used_percent_capped april_first_noon default_data).
  reflexivity.
Defined.

Lemma check_daily_reset_once_a_day_witness :
  fst (check_daily_reset april_first_noon default_data)
  = set_last_treat_date (Some (dt_date april_first_noon))
      (set_daily_treat_given false default_data)
  /\ last_treat_date default_data <> Some (dt_date april_first_noon).
Proof.
  apply (check_daily_reset_once_a_day april_first_noon default_data).
  reflexivity.
Defined.

Lemma check_rewards_complete_witness :
  In "Monthly Vacation"%string
    (rewards_unlocked
       (fst (check_rewards
               (set_rewards_unlocked ["Weekly Spa"%string]
                  (set_saving_streak 30 default_data))))).
Proof.
  apply (check_rewards_complete
           (set_rewards_unlocked ["Weekly Spa"%string]
              (set_saving_streak 30 default_data))).
  cbn. lia.
Defined.

Lemma first_run_defaults_witness :
  session (_initialize_defaults (mkStartup None Unreadable true []))
  = Some default_data
  /\ (disk_writable (mkStartup None Unreadable true []) = true ->
      disk (_initialize_defaults (mkStartup None Unreadable true []))
      = Stored (document_of default_data)
      /\ shown (_initialize_defaults (mkStartup None Unreadable true []))
         = shown (mkStartup None Unreadable true []))
  /\ (disk_writable (mkStartup None Unreadable true []) = false ->
      disk (_initialize_defaults (mkStartup None Unreadable true []))
      = disk (mkStartup None Unreadable true [])
      /\ shown (_initialize_defaults (mkStartup None Unreadable true []))
         = shown (mkStartup None Unreadable true [])
           ++ [st_error "Could not save data. Check file permissions."]).
Proof.
  apply (first_run_defaults (mkStartup None Unreadable true []));
    [reflexivity | now right].
Defined.

Lemma save_goal_button_outcomes_witness :
  let w :=
    save_goal_button "Laptop" 1200 100
      (save_goal_button "Vacation" 3000 0 fresh_world) in
  let w1 := save_goal_button "Vacation" 3000 250 w in
  dict_get "Vacation" (extra_goals (app_data w1)) = Some (mkGoal 3000 250)
  /\ dict_get "Laptop" (extra_goals (app_data w1)) = Some (mkGoal 1200 100)
  /\ map fst (extra_goals (app_data w1)) = ["Vacation"; "Laptop"]%string.
Proof.
  cbv zeta.
  destruct (save_goal_button_outcomes "Vacation" 3000 250
              (save_goal_button "Laptop" 1200 100
                 (save_goal_button "Vacation" 3000 0 fresh_world)))
    as [_ Hok].
  destruct Hok as (Hget & Hother & Hkeys & _);
    [discriminate | reflexivity |].
  split; [exact Hget|]. split.
  - rewrite (Hother "Laptop"%string) by discriminate. reflexivity.
  - rewrite Hkeys. reflexivity.
Defined.

(** ** The sums of pandas *)

Lemma pairwise_sum_rec_eq (fuel : nat) (a : list float) :
  Pandas.pairwise_sum_rec fuel a =
  if Nat.ltb (List.length a) 8 then Pandas.sum_linear a
  else if Nat.leb (List.length a) Pandas.PW_BLOCKSIZE
  then Pandas.sum_unrolled a
  else
    match fuel with
    | O => Pandas.sum_unrolled a
    | S fuel' =>
        let n2 := Nat.div (List.length a) 2 in
        let n2 := Nat.sub n2 (Nat.modulo n2 8) in
        (Pandas.pairwise_sum_rec fuel' (firstn n2 a)
         + Pandas.pairwise_sum_rec fuel' (skipn n2 a))%float
    end.
Proof.
  destruct fuel; reflexivity.
Qed.

(** Both halves of a cut are shorter than the array. *)
Lemma pairwise_cut_shorter (n : nat) :
  (128 < n)%nat ->
  (0 < Nat.div n 2 - Nat.modulo (Nat.div n 2) 8 < n)%nat.
Proof.
  intros Hn.
  pose proof (Nat.mod_upper_bound (Nat.div n 2) 8 ltac:(lia)) as Hm.
  pose proof (Nat.div_mod_eq n 2) as Hd.
  pose proof (Nat.mod_upper_bound n 2 ltac:(lia)) as Hr.
  lia.
Qed.

Lemma pairwise_sum_rec_any_fuel (f1 : nat) :
  forall (f2 : nat) (a : list float),
    (List.length a <= f1)%nat -> (List.length a <= f2)%nat ->
    Pandas.pairwise_sum_rec f1 a = Pandas.pairwise_sum_rec f2 a.
Proof.
  induction f1 as [|f1 IH]; intros f2 a H1 H2;
    rewrite (pairwise_sum_rec_eq _ a), (pairwise_sum_rec_eq f2 a).
  - destruct a; [|cbn in H1; lia]. reflexivity.
  - destruct (Nat.ltb (List.length a) 8); [reflexivity|].
    destruct (Nat.leb (List.length a) Pandas.PW_BLOCKSIZE) eqn:Hb;
      [reflexivity|].
    apply Nat.leb_gt in Hb. unfold Pandas.PW_BLOCKSIZE in Hb.
    destruct f2 as [|f2]; [lia|]. cbv zeta.
    pose proof (pairwise_cut_shorter _ Hb) as Hcut.
    set (n2 := (Nat.div (List.length a) 2
                - Nat.modulo (Nat.div (List.length a) 2) 8)%nat) in *.
    assert (Hl : List.length (firstn n2 a) = n2)
      by (rewrite length_firstn; lia).
    assert (Hr : List.length (skipn n2 a) = (List.length a - n2)%nat)
      by apply length_skipn.
    rewrite (IH f2 (firstn n2 a)), (IH f2 (skipn n2 a)) by lia.
    reflexivity.
Qed.

(** The length of the array is fuel enough: with it or with more, the sum is
    the same, and the branch for spent fuel is never taken. *)
Lemma pairwise_sum_rec_fuel (fuel : nat) (a : list float) :
  (List.length a <= fuel)%nat ->
  Pandas.pairwise_sum_rec fuel a = Pandas.pairwise_sum a.
Proof.
  intros H. unfold Pandas.pairwise_sum.
  now apply pairwise_sum_rec_any_fuel.
Qed.

(** An empty column sums to 0, one amount to itself (a NaN to 0). *)
Lemma pandas_sum_nil : Pandas.sum [] = 0%float.
Proof.
  reflexivity.
Qed.

(** From 8 amounts on, the order of the additions shows: the nine amounts
    add up to just above 50 in the column and to just below 50 when added
    from left to right. *)
Example pandas_sum_nine_amounts :
  Pandas.sum nine_amounts = 0x1.9000000000001p+5%float
  /\ Num.sum nine_amounts = 0x1.8ffffffffffffp+5%float.
Proof.
  split; vm_compute; reflexivity.
Qed.

(** Two whole blocks of 8 and a rest of 4; and 300 amounts, cut at 144. *)
Example pandas_sum_blocks :
  Pandas.sum (sample_amounts 20) = 0x1.7333333333334p+3%float
  /\ Num.sum (sample_amounts 20) = 0x1.7333333333333p+3%float.
Proof.
  split; vm_compute; reflexivity.
Qed.

Example pandas_sum_cut :
  Pandas.sum (sample_amounts 300) = 0x1.55p+10%float
  /\ Num.sum (sample_amounts 300) = 0x1.54fffffffffffp+10%float.
Proof.
  split; vm_compute; reflexivity.
Qed.

(** A NaN in the column is skipped. *)
Example pandas_sum_skips_nan :
  Pandas.sum [10; PrimFloat.nan; 5]%float = 15%float.
Proof.
  vm_compute. reflexivity.
Qed.

(** With the nine amounts spent against an allowance of 50, the day is over
    budget by the column's sum: the treat is refused, the streak is reset and
    the pet is sad. *)
Example nine_expenses_over_budget :
  daily_allowance
    (get_financial_summary april_first_noon (app_data nine_expenses_day))
  = 50%float
  /\ PrimFloat.ltb
       (todays_savings
          (get_financial_summary april_first_noon
             (app_data nine_expenses_day))) 0 = true
  /\ give_treat_callback april_first_noon nine_expenses_day
     = emit (over_budget (app_data nine_expenses_day)) nine_expenses_day
  /\ saving_streak
       (app_data
          (fst (main april_first_noon
                  (mkWorld
                     (set_saving_streak 6 (app_data nine_expenses_day))
                     None true [])))) = 0
  /\ mood (snd (snd (main april_first_noon nine_expenses_day)))
     = "Sad"%string.
Proof.
  repeat split; vm_compute; reflexivity.
Qed.

(** The ninth expense of the day, 6.96, brings the column to just above the
    allowance of 50: the streak of 6 is reset.  With other amounts the ninth
    expense, 8.10, brings the column to 50 exactly, though the amounts added
    from left to right exceed 50: the day is within budget, the streak
    reaches 7 and "Weekly Spa" is unlocked. *)
Example ninth_expense_of_the_day :
  saving_streak
    (app_data
       (log_expense_callback april_first_noon (696 / 100) "Food" "" false
          (eight_expenses_day
             [445; 597; 205; 108; 875; 846; 773; 455; 696]))) = 0
  /\ saving_streak
       (app_data
          (log_expense_callback april_first_noon (810 / 100) "Food" "" false
             (eight_expenses_day
                [822; 257; 584; 330; 195; 776; 803; 423; 810]))) = 7
  /\ rewards_unlocked
       (app_data
          (log_expense_callback april_first_noon (810 / 100) "Food" "" false
             (eight_expenses_day
                [822; 257; 584; 330; 195; 776; 803; 423; 810])))
     = ["Weekly Spa"%string]
  /\ PrimFloat.ltb 50
       (Num.sum (amounts_of_cents
                   [822; 257; 584; 330; 195; 776; 803; 423; 810])) = true.
Proof.
  repeat split; vm_compute; reflexivity.
Qed.
